(** * robot_brain: intent recognition, permission gate and task dispatch

    A shallow embedding of the dispatch core of the [robot_brain] package:

    - [core/intent.py]          ([IntentRecognizer]),
    - [actions/school_roles.py] ([SchoolRoleManager.check_permission]),
    - [core/memory.py]          (the part of [MemoryManager] the dispatcher uses),
    - [ai/response_router.py], [actions/entertainment.py] (the functions whose
      return value becomes the dispatcher's response),
    - [core/task_manager.py]    ([TaskManager]).

    Conventions of the embedding.

    - A Python [str] is a [string]: the sequence of bytes of its UTF-8
      encoding.  Substring search, [replace], [startswith]/[endswith] act on
      UTF-8 exactly as on code points.  Case folding and white space are those
      of the ASCII range (Bangla has no case; the catalogue and the token lists
      contain no other cased letters).
    - A Python [float] obtained as a quotient of two small naturals is the
      rational [Q] with that value; [0.0], [1.0] and [0.6] are [0], [1] and
      [6#10].  Comparisons of such quotients agree with the comparisons of
      their correctly rounded doubles.
    - A [Dict[str, str]] is a [gmap string string]; the pattern catalogue, whose
      iteration order matters, is an association list in insertion order.
    - [print] is not modelled. *)

From Stdlib Require Import Ascii String QArith Lqa.
From stdpp Require Import base option list strings gmap.

Local Open Scope string_scope.

(** ** Python string primitives *)

Module PyStr.

(** [str.isspace] on one character of the ASCII range:
    TAB, LF, VT, FF, CR, FS, GS, RS, US and SPACE. *)
Definition is_space (c : ascii) : bool :=
  let n := nat_of_ascii c in
  ((9 <=? n)%nat && (n <=? 13)%nat) || ((28 <=? n)%nat && (n <=? 32)%nat).

Definition lower_char (c : ascii) : ascii :=
  let n := nat_of_ascii c in
  if ((65 <=? n)%nat && (n <=? 90)%nat) then ascii_of_nat (n + 32) else c.

(** [s.lower()] *)
Fixpoint lower (s : string) : string :=
  match s with
  | EmptyString => EmptyString
  | String c r => String (lower_char c) (lower r)
  end.

Definition is_empty (s : string) : bool :=
  match s with EmptyString => true | String _ _ => false end.

Fixpoint lstrip (s : string) : string :=
  match s with
  | EmptyString => EmptyString
  | String c r => if is_space c then lstrip r else s
  end.

Fixpoint rstrip (s : string) : string :=
  match s with
  | EmptyString => EmptyString
  | String c r =>
      let r' := rstrip r in
      if is_space c && is_empty r' then EmptyString else String c r'
  end.

(** [s.strip()] *)
Definition strip (s : string) : string := rstrip (lstrip s).

(** [s.split()]: the maximal runs of non-space characters, in order.
    [cur] is the run being read, reversed. *)
Fixpoint split_go (cur : string) (s : string) : list string :=
  match s with
  | EmptyString => if is_empty cur then [] else [String.rev cur]
  | String c r =>
      if is_space c
      then (if is_empty cur then split_go EmptyString r
            else String.rev cur :: split_go EmptyString r)
      else split_go (String c cur) r
  end.

Definition split (s : string) : list string := split_go EmptyString s.

(** [s.startswith(p)] *)
Fixpoint startswith (p s : string) : bool :=
  match p, s with
  | EmptyString, _ => true
  | String a p', String b s' => if Ascii.eqb a b then startswith p' s' else false
  | String _ _, EmptyString => false
  end.

(** [needle in hay] *)
Fixpoint contains (needle hay : string) : bool :=
  startswith needle hay ||
  match hay with
  | EmptyString => false
  | String _ r => contains needle r
  end.

(** [s.replace(old, new)] for a non-empty [old]: the non-overlapping
    occurrences of [old], leftmost first, are replaced.  [skip] counts the
    characters of an occurrence still to be dropped. *)
Fixpoint replace_go (old new : string) (skip : nat) (s : string) : string :=
  match s with
  | EmptyString => EmptyString
  | String c r =>
      match skip with
      | S k => replace_go old new k r
      | O =>
          if startswith old s
          then new +:+ replace_go old new (String.length old - 1) r
          else String c (replace_go old new 0 r)
      end
  end.

(** With an empty [old], Python puts [new] before every character and at
    the end. *)
Fixpoint intersperse (new s : string) : string :=
  match s with
  | EmptyString => new
  | String c r => new +:+ String c (intersperse new r)
  end.

Definition replace (old new s : string) : string :=
  if is_empty old then intersperse new s else replace_go old new 0 s.

(** [s.endswith(p)] *)
Definition endswith (p s : string) : bool :=
  startswith (String.rev p) (String.rev s).

(** A byte that continues a UTF-8 character: [10xxxxxx]. *)
Definition is_continuation (c : ascii) : bool :=
  let n := nat_of_ascii c in (128 <=? n)%nat && (n <? 192)%nat.

(** [s[:n]]: the first [n] characters. *)
Fixpoint take_chars (n : nat) (s : string) : string :=
  match s with
  | EmptyString => EmptyString
  | String c r =>
      if is_continuation c then String c (take_chars n r)
      else match n with
           | O => EmptyString
           | S k => String c (take_chars k r)
           end
  end.

(** [s[len(p):]] for a prefix [p] of [s]. *)
Fixpoint drop_prefix (p s : string) : string :=
  match p, s with
  | String _ p', String _ s' => drop_prefix p' s'
  | _, _ => s
  end.

(** [any(w in text for w in ws)] *)
Definition any_in (ws : list string) (text : string) : bool :=
  existsb (fun w => contains w text) ws.

End PyStr.

(** ** The fragment of [re] the pattern catalogue uses

    Every pattern of the catalogue is literal text, some followed by the
    token [\s+].  A pattern is read into atoms; no other regular-expression
    operator occurs in the catalogue. *)

Module Re.

Inductive atom : Type :=
| Lit (c : ascii)      (* one literal character *)
| Spaces.              (* \s+ : one or more white-space characters *)

Fixpoint parse (p : string) : list atom :=
  match p with
  | String "\" (String "s" (String "+" r)) => Spaces :: parse r
  | String c r => Lit c :: parse r
  | EmptyString => []
  end.

(** Equality of characters under [re.IGNORECASE]. *)
Definition ci_eqb (a b : ascii) : bool :=
  Ascii.eqb (PyStr.lower_char a) (PyStr.lower_char b).

(** Does the pattern match a prefix of [s]? *)
Fixpoint match_here (re : list atom) (s : string) : bool :=
  match re with
  | [] => true
  | Lit c :: re' =>
      match s with
      | String d s' => ci_eqb c d && match_here re' s'
      | EmptyString => false
      end
  | Spaces :: re' =>
      (fix eat (s : string) : bool :=
         match s with
         | String d s' =>
             PyStr.is_space d && (match_here re' s' || eat s')
         | EmptyString => false
         end) s
  end.

Fixpoint search_atoms (re : list atom) (s : string) : bool :=
  match_here re s ||
  match s with
  | String _ s' => search_atoms re s'
  | EmptyString => false
  end.

(** [bool(re.search(pattern, text, re.IGNORECASE))] *)
Definition search (pattern text : string) : bool :=
  search_atoms (parse pattern) text.

End Re.

(** ** [core/intent.py] *)

Module IntentRecognizer.

(** [class IntentType(Enum)] *)
Inductive IntentType : Type :=
| GREETING | QUESTION | COMMAND | ENTERTAINMENT | CAMERA_CAPTURE
| FACE_RECOGNITION | MOVEMENT | SEARCH | UNKNOWN.

Global Instance IntentType_eq_dec : EqDecision IntentType.
Proof. solve_decision. Defined.

(** [IntentType.value] *)
Definition value (t : IntentType) : string :=
  match t with
  | GREETING => "greeting"
  | QUESTION => "question"
  | COMMAND => "command"
  | ENTERTAINMENT => "entertainment"
  | CAMERA_CAPTURE => "camera_capture"
  | FACE_RECOGNITION => "face_recognition"
  | MOVEMENT => "movement"
  | SEARCH => "search"
  | UNKNOWN => "unknown"
  end.

(** [@dataclass class Intent] *)
Record Intent : Type := {
  type : IntentType;
  confidence : Q;
  parameters : gmap string string;
  original_text : string;
  language : string
}.

(** [_load_bangla_patterns]: the dictionary in insertion order. *)
Definition bangla_patterns : list (IntentType * list string) :=
  [
    (GREETING,
     ["আসসালামু আলাইকুম";
      "নমস্কার";
      "হ্যালো";
      "কেমন আছেন";
      "কেমন আছো";
      "ভালো আছেন";
      "ভালো আছো"]);
    (QUESTION,
     ["কি\s+";
      "কী\s+";
      "কেন\s+";
      "কখন\s+";
      "কোথায়\s+";
      "কিভাবে\s+";
      "কাদের\s+";
      "কাদেরকে\s+";
      "জানতে চাই";
      "বলুন";
      "বলো";
      "কি জানেন";
      "কি জানো"]);
    (ENTERTAINMENT,
     ["কৌতুক";
      "জোক";
      "গল্প";
      "গান";
      "মজার";
      "হাসির";
      "বিনোদন"]);
    (CAMERA_CAPTURE,
     ["ছবি তুলো";
      "ফটো নাও";
      "চিত্র ধারণ";
      "ক্যামেরা";
      "আমার ছবি"]);
    (MOVEMENT,
     ["এগিয়ে যাও";
      "পিছনে যাও";
      "ডানে যাও";
      "বামে যাও";
      "ঘুরো";
      "হাত নাড়াও";
      "মাথা নাড়াও"]);
    (SEARCH,
     ["খুঁজে বের করো";
      "ইন্টারনেটে দেখো";
      "গুগলে দেখো";
      "অনলাইনে দেখো"])
  ].

(** [_load_english_patterns] *)
Definition english_patterns : list (IntentType * list string) :=
  [
    (GREETING,
     ["hello";
      "hi";
      "hey";
      "good morning";
      "good afternoon";
      "good evening";
      "how are you";
      "how do you do";
      "nice to meet you"]);
    (QUESTION,
     ["what\s+";
      "why\s+";
      "when\s+";
      "where\s+";
      "how\s+";
      "who\s+";
      "which\s+";
      "can you tell me";
      "do you know";
      "explain";
      "describe"]);
    (ENTERTAINMENT,
     ["tell me a joke";
      "joke";
      "funny";
      "story";
      "sing";
      "entertainment";
      "play"]);
    (CAMERA_CAPTURE,
     ["take a picture";
      "take my photo";
      "capture";
      "camera";
      "snapshot";
      "photograph"]);
    (MOVEMENT,
     ["move forward";
      "move backward";
      "turn left";
      "turn right";
      "wave hand";
      "nod head";
      "walk"]);
    (SEARCH,
     ["search for";
      "look up";
      "find information";
      "google";
      "internet search"])
  ].

Definition confidence_threshold : Q := (6 # 10)%Q.

(** [a < b] on floats. *)
Definition Qltb (a b : Q) : bool := negb (Qle_bool b a).

(** [max(a, b)]: the first of the largest arguments. *)
Definition py_max (a b : Q) : Q := if Qltb a b then b else a.

(** The inner loop of [_calculate_confidence]: does [word] contain, or lie
    in, one of the pattern's words? *)
Definition word_hits (pattern_words : list string) (word : string) : bool :=
  existsb (fun pattern_word =>
             PyStr.contains word pattern_word || PyStr.contains pattern_word word)
          pattern_words.

(** The score of one pattern: the body of the outer loop. *)
Definition pattern_confidence (text pattern : string) : Q :=
  if Re.search pattern text then 1%Q
  else
    let words := PyStr.split text in
    let pattern_words := PyStr.split (PyStr.replace "\s+" " " pattern) in
    let matches := length (filter (fun w => word_hits pattern_words w = true) words) in
    match pattern_words with
    | [] => 0%Q
    | _ :: _ => (Z.of_nat matches # Pos.of_nat (length pattern_words))%Q
    end.

Definition _calculate_confidence (text : string) (patterns : list string) : Q :=
  fold_left (fun max_confidence pattern =>
               py_max max_confidence (pattern_confidence text pattern))
            patterns 0%Q.

Definition question_words_bn : list string :=
  ["কি"; "কী"; "কেন"; "কখন"; "কোথায়"; "কিভাবে"; "কাদের"; "কাদেরকে"].
Definition question_words_en : list string :=
  ["what"; "why"; "when"; "where"; "how"; "who"; "which"].
Definition self_words_bn : list string := ["আমার"; "আমাকে"; "সেলফি"].
Definition self_words_en : list string := ["my"; "me"; "selfie"].
Definition search_prefixes_bn : list string :=
  ["খুঁজে বের করো"; "ইন্টারনেটে দেখো"; "গুগলে দেখো"; "অনলাইনে দেখো"].
Definition search_prefixes_en : list string :=
  ["search for"; "look up"; "find information about"; "google"].

(** [for word in question_words: text = text.replace(word, '').strip()] *)
Definition strip_question_words (ws : list string) (text : string) : string :=
  fold_left (fun t word => PyStr.strip (PyStr.replace word "" t)) ws text.

(** The [for prefix in search_prefixes] loop with its [break]. *)
Fixpoint search_query (prefixes : list string) (text : string) : option string :=
  match prefixes with
  | [] => None
  | prefix :: rest =>
      if PyStr.contains prefix text
      then Some (PyStr.strip (PyStr.replace prefix "" text))
      else search_query rest text
  end.

Definition _extract_parameters
    (text : string) (intent_type : IntentType) (language : string)
  : gmap string string :=
  match intent_type with
  | QUESTION =>
      let ws := if String.eqb language "bn" then question_words_bn
                else question_words_en in
      {[ "topic" := strip_question_words ws text ]}
  | CAMERA_CAPTURE =>
      let ws := if String.eqb language "bn" then self_words_bn
                else self_words_en in
      if PyStr.any_in ws text then {[ "target" := "self" ]} else ∅
  | MOVEMENT =>
      if String.eqb language "bn" then
        if PyStr.contains "এগিয়ে" text || PyStr.contains "সামনে" text
        then {[ "direction" := "forward" ]}
        else if PyStr.contains "পিছনে" text then {[ "direction" := "backward" ]}
        else if PyStr.contains "ডানে" text then {[ "direction" := "right" ]}
        else if PyStr.contains "বামে" text then {[ "direction" := "left" ]}
        else ∅
      else
        if PyStr.contains "forward" text then {[ "direction" := "forward" ]}
        else if PyStr.contains "backward" text || PyStr.contains "back" text
        then {[ "direction" := "backward" ]}
        else if PyStr.contains "left" text then {[ "direction" := "left" ]}
        else if PyStr.contains "right" text then {[ "direction" := "right" ]}
        else ∅
  | SEARCH =>
      let prefixes := if String.eqb language "bn" then search_prefixes_bn
                      else search_prefixes_en in
      match search_query prefixes text with
      | Some q => {[ "query" := q ]}
      | None => ∅
      end
  | _ => ∅
  end.

(** One step of the loop over [patterns.items()]: the state is
    [(best_intent, best_confidence)]. *)
Definition scan_step (text : string)
    (best : option IntentType * Q) (entry : IntentType * list string)
  : option IntentType * Q :=
  let confidence := _calculate_confidence text entry.2 in
  if Qltb best.2 confidence then (Some entry.1, confidence) else best.

Definition scan (text : string) (patterns : list (IntentType * list string))
  : option IntentType * Q :=
  fold_left (scan_step text) patterns (None, 0%Q).

Definition patterns_for (language : string) : list (IntentType * list string) :=
  if String.eqb language "bn" then bangla_patterns else english_patterns.

Definition normalize (text : string) : string := PyStr.strip (PyStr.lower text).

(** [recognize].  When the threshold is reached [best_intent] is not
    [None]; [_extract_parameters] on [None] would take none of its branches
    and return the empty dictionary. *)
Definition recognize (text language : string) : Intent :=
  let text := normalize text in
  let patterns := patterns_for language in
  let best := scan text patterns in
  let best_intent := best.1 in
  let best_confidence := best.2 in
  let parameters :=
    if Qle_bool confidence_threshold best_confidence
    then match best_intent with
         | Some t => _extract_parameters text t language
         | None => ∅
         end
    else ∅ in
  {| type := default UNKNOWN best_intent;
     confidence := best_confidence;
     parameters := parameters;
     original_text := text;
     language := language |}.

End IntentRecognizer.

(** ** [actions/school_roles.py]: the permission gate *)

Module SchoolRoleManager.

(** [self.role_permissions] *)
Definition role_permissions : gmap string (list string) :=
  list_to_map
    [ ("student", ["ask_questions"; "request_help"; "entertainment"]);
      ("teacher", ["ask_questions"; "request_help"; "entertainment";
                   "take_photos"; "student_info"]);
      ("principal", ["ask_questions"; "request_help"; "entertainment";
                     "take_photos"; "student_info"; "reports";
                     "system_control"]);
      ("admin", ["all_permissions"]) ].

(** [check_permission].  On strings none of the three tests can raise, so
    the [except] branch is not reachable. *)
Definition check_permission (user_role action : string) : bool :=
  match role_permissions !! user_role with
  | None => false
  | Some permissions =>
      if bool_decide ("all_permissions" ∈ permissions) then true
      else bool_decide (action ∈ permissions)
  end.

End SchoolRoleManager.

(** ** Effects: results, the world and the collaborators *)

Module Py.

(** The outcome of a call: a value, or an exception (its class name). *)
Inductive result (A : Type) : Type :=
| Return (a : A)
| Raise (e : string).
Global Arguments Return {A} a.
Global Arguments Raise {A} e.

(** Truth value of a [str] and of an [Optional[str]]. *)
Definition truthy (s : string) : bool := negb (PyStr.is_empty s).
Definition truthy_opt (o : option string) : bool :=
  match o with Some s => truthy s | None => false end.

Definition nl : string := String "010" EmptyString.

End Py.
Export Py.

(** [core/memory.py]: the rows of the SQLite tables. *)
Module Memory.

Record Person : Type := {
  name : string;
  face_encoding : string;
  role : string;
  language_preference : string;
  first_met : string;
  last_seen : string;
  interaction_count : Z;
  notes : string
}.

(** A row of [conversations]; the [id] is the position in the table. *)
Record Conversation : Type := {
  timestamp : string;
  user_name : option string;
  input_text : string;
  input_language : string;
  intent_type : string;
  response_text : option string;
  response_language : option string;
  confidence : Q
}.

Record Db : Type := {
  people : list Person;
  conversations : list Conversation;
  system_settings : list (string * string * string)
}.

(** The dictionary [get_user_preferences] builds for a known person. *)
Record UserInfo : Type := {
  info_name : string;
  info_role : string;
  info_language_preference : string;
  info_interaction_count : Z;
  info_last_seen : string;
  recent_topics : list string;
  info_notes : string
}.

End Memory.

(** The calls [_handle_movement] makes on a [MotionController]. *)
Inductive MotionCall : Type :=
| move_forward | move_backward | turn_left | turn_right | wave_hand.

(** What a call can change: the database, the clock and the record of the
    motion-controller calls made so far. *)
Record World : Type := {
  db : Memory.Db;
  clock : nat;
  motion_calls : list MotionCall
}.

(** A story of the tables: the dictionary with keys [title] and [story]. *)
Record Story : Type := { story_title : string; story_text : string }.
Record Riddle : Type := {
  question_bn : string; answer_bn : string;
  question_en : string; answer_en : string
}.

(** The environment: what the collaborators outside the core answer.
    - [db_available]: [sqlite3.connect] and the statements succeed;
      otherwise they raise.
    - [isoformat]: [datetime.now().isoformat()] at a clock value.
    - [ai_modules]: importing [ResponseRouter] and [OllamaClient] and
      constructing them.
    - [ollama_chat]: [OllamaClient.chat(messages, model)].
    - [entertainment_module]: importing and constructing
      [EntertainmentModule]; the content tables; the two [random.choice]
      draws.
    - [vision_imports], [vision_ready]: importing the vision classes;
      constructing them; [take_selfie], [take_photo].
    - [motion_module]: importing and constructing [MotionController];
      [motor]: one of its calls.
    - [web_search]: importing and constructing [WebSearcher] and
      [search(query)]. *)
Record Env : Type := {
  db_available : bool;
  isoformat : nat -> string;
  ai_modules : result unit;
  ollama_chat : list (string * string) -> string -> result (option string);
  entertainment_module : result unit;
  bangla_jokes : list string;
  english_jokes : list string;
  bangla_stories : list Story;
  english_stories : list Story;
  riddles : list Riddle;
  pick_kind : nat;
  pick_item : nat;
  vision_imports : result unit;
  vision_ready : result unit;
  take_selfie : result (option string);
  take_photo : result (option string);
  motion_module : result unit;
  motor : MotionCall -> result unit;
  web_search : string -> result (option string)
}.

(** Computations: a state transformer that may raise; the changes made
    before an exception stay. *)
Definition Py (A : Type) : Type := World -> result A * World.

Global Instance Py_ret : MRet Py := fun A a w => (Return a, w).

Global Instance Py_bind : MBind Py := fun A B f m w =>
  match m w with
  | (Return a, w') => f a w'
  | (Raise e, w') => (Raise e, w')
  end.

(** A call whose outcome the environment decides. *)
Definition lift {A : Type} (r : result A) : Py A := fun w => (r, w).

(** Reading the world. *)
Definition gets {A : Type} (f : World -> A) : Py A := fun w => (Return (f w), w).

(** [try: body except Exception as e: handler] *)
Definition try_except {A : Type} (body : Py A) (handler : string -> Py A) : Py A :=
  fun w =>
    match body w with
    | (Return a, w') => (Return a, w')
    | (Raise e, w') => handler e w'
    end.

(** [post m P]: whenever [m] returns, the value satisfies [P]. *)
Definition post {A : Type} (m : Py A) (P : A -> Prop) : Prop :=
  forall w, match m w with
            | (Return a, _) => P a
            | (Raise _, _) => True
            end.

(** ** [core/memory.py]: the operations the dispatcher uses *)

Module MemoryManager.
Import Memory.

Section WithEnv.
Context (env : Env).

(** [datetime.now().isoformat()] *)
Definition now : Py string := fun w =>
  (Return (isoformat env (clock w)),
   {| db := db w; clock := S (clock w); motion_calls := motion_calls w |}).

(** [with sqlite3.connect(self.db_path) as conn] *)
Definition connect : Py unit :=
  lift (if db_available env then Return tt
        else Raise "sqlite3.OperationalError").

Definition insert_conversation (row : Conversation) : Py unit := fun w =>
  (Return tt,
   {| db := {| people := people (db w);
               conversations := conversations (db w) ++ [row];
               system_settings := system_settings (db w) |};
      clock := clock w;
      motion_calls := motion_calls w |}).

Definition add_conversation
    (user_name : option string) (input_text input_language intent_type : string)
    (response_text response_language : option string) (confidence : Q)
  : Py unit :=
  timestamp ← now;
  _ ← connect;
  insert_conversation
    {| timestamp := timestamp; user_name := user_name;
       input_text := input_text; input_language := input_language;
       intent_type := intent_type; response_text := response_text;
       response_language := response_language;
       confidence := confidence |}.

(** [SELECT ... FROM people WHERE name = ?] and [fetchone] *)
Definition get_person_by_name (name : string) : Py (option Person) :=
  _ ← connect;
  gets (fun w => List.find (fun p => String.eqb (Memory.name p) name)
                           (people (db w))).

(** [get_conversation_history(user_name, limit)] for a given name: the
    newest [limit] rows of that user (rows are inserted in time order). *)
Definition get_conversation_history (user_name : string) (limit : nat)
  : Py (list Conversation) :=
  _ ← connect;
  gets (fun w =>
          take limit
            (rev (List.filter
                    (fun c => bool_decide (Memory.user_name c = Some user_name))
                    (conversations (db w))))).

(** [get_user_preferences]: [None] stands for the empty dictionary. *)
Definition get_user_preferences (user_name : string) : Py (option UserInfo) :=
  person ← get_person_by_name user_name;
  match person with
  | None => mret None
  | Some person =>
      recent_conversations ← get_conversation_history user_name 5;
      mret (Some {| info_name := Memory.name person;
                    info_role := role person;
                    info_language_preference := language_preference person;
                    info_interaction_count := interaction_count person;
                    info_last_seen := last_seen person;
                    recent_topics := map intent_type recent_conversations;
                    info_notes := notes person |})
  end.

(** [user_info.get('role', 'friend')] *)
Definition get_role (user_info : option UserInfo) : string :=
  match user_info with Some i => info_role i | None => "friend" end.

(** [user_info.get('language_preference', 'bn')] *)
Definition get_language_preference (user_info : option UserInfo) : string :=
  match user_info with
  | Some i => info_language_preference i
  | None => "bn"
  end.

End WithEnv.
End MemoryManager.

(** ** [ai/response_router.py]: [get_response] as the task manager calls it

    The router is constructed anew for every call, so its conversation
    history is empty, and [user_context] is [None]. *)

Module ResponseRouter.

Definition bangla_model : string := "gemma:2b".
Definition english_model : string := "gemma:2b".

(** [_initialize_system_prompts] *)
Definition system_prompts : gmap string string :=
  list_to_map
    [ ("bangla_general",
       ("আপনি একটি বন্ধুত্বপূর্ণ রোবট সহকারী। আপনি বাংলা ভাষায় কথা বলুন এবং সহায়তা প্রদান করুন। " +:+ nl +:+ "            আপনার উত্তর সংক্ষিপ্ত, স্পষ্ট এবং বন্ধুত্বপূর্ণ হওয়া উচিত।"));
      ("bangla_school",
       ("আপনি একটি স্কুলের রোবট সহকারী। আপনি শিক্ষক, ছাত্র এবং প্রিন্সিপালের সাথে কথা বলুন।" +:+ nl +:+ "            আপনি শিক্ষামূলক বিষয়ে সাহায্য করতে পারেন এবং স্কুলের নিয়ম-কানুন সম্পর্কে জানাতে পারেন।"));
      ("english_general",
       ("You are a friendly robot assistant. Provide helpful, concise, and clear responses." +:+ nl +:+ "            Be polite and professional in your interactions."));
      ("english_school",
       ("You are a school robot assistant. Help teachers, students, and the principal." +:+ nl +:+ "            You can assist with educational topics and provide information about school policies.")) ].

(** [_select_model_and_prompt(language, None)].  The default handed to
    [dict.get] is the subscript [self.system_prompts[f"{language}_general"]],
    evaluated before the call: a missing key raises [KeyError]. *)
Definition _select_model_and_prompt (language : string) : result (string * string) :=
  let model := if String.eqb language "bn" then bangla_model else english_model in
  let prompt_key := language +:+ "_general" in
  match system_prompts !! (language +:+ "_general") with
  | None => Raise "KeyError"
  | Some fallback => Return (model, default fallback (system_prompts !! prompt_key))
  end.

(** [_prepare_conversation_context] with an empty history. *)
Definition _prepare_conversation_context
    (user_input system_prompt language : string) : list (string * string) :=
  [("system", system_prompt); ("user", user_input)].

Definition prefixes_to_remove : list string :=
  ["Assistant:"; "Robot:"; "AI:"; "রোবট:"; "সহকারী:";
   "I am"; "আমি"; "As an AI"; "As a robot"].

(** The [for prefix in prefixes_to_remove] loop with its [break]. *)
Fixpoint remove_prefix (prefixes : list string) (response : string) : string :=
  match prefixes with
  | [] => response
  | prefix :: rest =>
      if PyStr.startswith prefix response
      then PyStr.strip (PyStr.drop_prefix prefix response)
      else remove_prefix rest response
  end.

(** [response.endswith((...))] *)
Definition endswith_any (suffixes : list string) (response : string) : bool :=
  existsb (fun suffix => PyStr.endswith suffix response) suffixes.

Definition _post_process_response (response language : string) : string :=
  let response := PyStr.strip response in
  let response := remove_prefix prefixes_to_remove response in
  if String.eqb language "bn" then
    if negb (endswith_any ["."; "!"; "?"; "।"] response)
    then response +:+ "।"
    else response
  else
    if negb (endswith_any ["."; "!"; "?"] response)
    then response +:+ "."
    else response.

Definition _get_fallback_response (language : string) : string :=
  if String.eqb language "bn" then
    "দুঃখিত, আমি এখন উত্তর দিতে পারছি না। পরে আবার চেষ্টা করুন।"
  else
    "Sorry, I can't provide a response right now. Please try again later.".

Section WithEnv.
Context (env : Env).

Definition get_response (user_input language : string) : Py string :=
  try_except
    ('(model, system_prompt) ← lift (_select_model_and_prompt language);
     let messages :=
       _prepare_conversation_context user_input system_prompt language in
     response ← lift (ollama_chat env messages model);
     if truthy_opt response
     then mret (_post_process_response (default "" response) language)
     else mret (_get_fallback_response language))
    (fun e => mret (_get_fallback_response language)).

End WithEnv.
End ResponseRouter.

(** ** [actions/entertainment.py]: the content the task manager asks for

    The jokes, stories and riddles are the tables of the environment.  No
    statement of these functions can raise on such tables, so their [except]
    branches are not reachable. *)

Module EntertainmentModule.

Definition _get_fallback_content (language : string) : string :=
  if String.eqb language "bn" then
    "দুঃখিত, এখন কোনো বিনোদনমূলক বিষয়বস্তু নেই। পরে আবার চেষ্টা করুন।"
  else
    "Sorry, no entertainment content available right now. Please try again later.".

Definition _get_fallback_joke (language : string) : string :=
  if String.eqb language "bn" then
    "একটা মজার কথা: রোবটরা কখনো ক্লান্ত হয় না, কিন্তু তারা সবসময় চার্জ নেয়!"
  else
    "Here's a funny fact: Robots never get tired, but they always need to recharge!".

Definition _get_fallback_story (language : string) : string :=
  if String.eqb language "bn" then
    "একটা ছোট গল্প: একদিন একটি রোবট মানুষের মতো কথা বলতে শিখল। সে বলল, 'আমি তোমাদের বন্ধু হতে চাই।'"
  else
    "A short story: One day, a robot learned to speak like humans. It said, 'I want to be your friend.'".

Definition _get_fallback_riddle (language : string) : string :=
  if String.eqb language "bn" then
    "একটা ধাঁধা: এমন কি জিনিস যা সবসময় আসে কিন্তু কখনো যায় না? উত্তর: আগামীকাল।"
  else
    "Here's a riddle: What always comes but never arrives? Answer: Tomorrow.".

(** [random.choice(seq)] on a non-empty sequence, for the draw [pick]. *)
Definition choice {A : Type} (pick : nat) (seq : list A) : option A :=
  seq !! (pick mod length seq)%nat.

Section WithEnv.
Context (env : Env).

Definition get_joke (language : string) : string :=
  let jokes := if String.eqb language "bn" then bangla_jokes env
               else english_jokes env in
  let intro := if String.eqb language "bn" then "একটা মজার কৌতুক শুনুন:"
               else "Here's a funny joke:" in
  match choice (pick_item env) jokes with
  | Some joke => (intro +:+ nl +:+ nl +:+ joke)
  | None => _get_fallback_joke language
  end.

Definition get_story (language : string) : string :=
  let stories := if String.eqb language "bn" then bangla_stories env
                 else english_stories env in
  let intro := if String.eqb language "bn" then "একটা গল্প শুনুন:"
               else "Here's a story for you:" in
  match choice (pick_item env) stories with
  | Some story => (intro +:+ nl +:+ nl +:+ "📖 " +:+ (story_title story) +:+ nl +:+ nl +:+ (story_text story))
  | None => _get_fallback_story language
  end.

Definition get_riddle (language : string) : string :=
  match choice (pick_item env) (riddles env) with
  | Some riddle =>
      let question := if String.eqb language "bn" then question_bn riddle
                      else question_en riddle in
      let answer := if String.eqb language "bn" then answer_bn riddle
                    else answer_en riddle in
      let intro := if String.eqb language "bn" then "একটা ধাঁধা:"
                   else "Here's a riddle for you:" in
      if String.eqb language "bn"
      then (intro +:+ nl +:+ nl +:+ "❓ " +:+ question +:+ nl +:+ nl +:+ "💡 উত্তর: " +:+ answer)
      else (intro +:+ nl +:+ nl +:+ "❓ " +:+ question +:+ nl +:+ nl +:+ "💡 Answer: " +:+ answer)
  | None => _get_fallback_riddle language
  end.

Definition get_educational_story (language : string) : string :=
  if String.eqb language "bn" then
    ("📚 শিক্ষামূলক গল্প:" +:+ nl +:+ nl +:+ "একজন ছাত্র প্রতিদিন একটু একটু করে পড়াশোনা করত। তার বন্ধুরা তাকে বলত, 'এত কম পড়লে কী হবে?' কিন্তু সে বলত, 'ধীরে ধীরে পড়লে ভালোভাবে মনে থাকে।' এক বছর পর সে সবচেয়ে ভালো ফলাফল করল। নৈতিকতা: ধৈর্য এবং নিয়মিত চেষ্টা সফলতার চাবিকাঠি।")
  else
    ("📚 Educational Story:" +:+ nl +:+ nl +:+ "A student studied a little bit every day. His friends said, 'What's the point of studying so little?' But he replied, 'Studying slowly helps me remember better.' After one year, he achieved the best results. Moral: Patience and regular effort are the keys to success.").

(** [random.choice(['joke', 'story', 'riddle'])] *)
Definition content_type : string :=
  default "riddle" (choice (pick_kind env) ["joke"; "story"; "riddle"]).

Definition get_general_content (language : string) : string :=
  if String.eqb content_type "joke" then get_joke language
  else if String.eqb content_type "story" then get_story language
  else get_riddle language.

Definition get_student_content (language : string) : string :=
  if String.eqb content_type "joke" then get_joke language
  else if String.eqb content_type "story" then get_educational_story language
  else get_riddle language.

Definition get_professional_content (language : string) : string :=
  if String.eqb language "bn" then
    "আজকের দিনটি আপনার জন্য শুভ হোক! শিক্ষা হলো আলোর পথ। আপনি ছাত্রদের জীবনে আলো ছড়াচ্ছেন।"
  else
    "Have a wonderful day! Education is the light of life. You are spreading light in your students' lives.".

End WithEnv.
End EntertainmentModule.

(** ** [core/task_manager.py] *)

Module TaskManager.
Import IntentRecognizer MemoryManager.

(** [if current_user:] on an [Optional[str]]: the name, when there is a
    non-empty one. *)
Definition known (current_user : option string) : option string :=
  match current_user with
  | Some u => if truthy u then Some u else None
  | None => None
  end.

Definition _get_error_response (language : string) : string :=
  if String.eqb language "bn" then
    "দুঃখিত, কিছু সমস্যা হয়েছে। আবার চেষ্টা করুন।"
  else
    "Sorry, something went wrong. Please try again.".

Definition _get_fallback_response (language : string) : string :=
  if String.eqb language "bn" then
    "দুঃখিত, আমি এখন এই প্রশ্নের উত্তর দিতে পারছি না। পরে আবার চেষ্টা করুন।"
  else
    "Sorry, I can't answer that question right now. Please try again later.".

(** The refusal of [_handle_movement]. *)
Definition movement_refusal (language : string) : string :=
  if String.eqb language "bn" then
    "দুঃখিত, আমি শুধুমাত্র শিক্ষক বা প্রিন্সিপালের নির্দেশে চলাফেরা করতে পারি।"
  else
    "Sorry, I can only move when instructed by teachers or the principal.".

(** [role not in ['principal', 'teacher', 'admin']] *)
Definition may_move (role : string) : bool :=
  bool_decide (role ∈ ["principal"; "teacher"; "admin"]).

(** The controller call chosen by [direction]. *)
Definition motion_for (direction : string) : MotionCall :=
  if String.eqb direction "forward" then move_forward
  else if String.eqb direction "backward" then move_backward
  else if String.eqb direction "left" then turn_left
  else if String.eqb direction "right" then turn_right
  else wave_hand.

Section WithEnv.
Context (env : Env).

(** A call on the motion controller: it is recorded, then the motor
    answers. *)
Definition motion_call (c : MotionCall) : Py unit := fun w =>
  (motor env c,
   {| db := db w; clock := clock w; motion_calls := motion_calls w ++ [c] |}).

Definition _handle_greeting (intent : Intent) (current_user : option string)
  : Py string :=
  match known current_user with
  | Some current_user =>
      user_info ← get_user_preferences env current_user;
      let role := get_role user_info in
      let lang_pref := get_language_preference user_info in
      if String.eqb lang_pref "bn" then
        if String.eqb role "principal" then
          mret "আসসালামু আলাইকুম, প্রিন্সিপাল স্যার! আপনার সাথে দেখা করে খুবই ভালো লাগছে।"
        else if String.eqb role "teacher" then
          mret "আসসালামু আলাইকুম, স্যার! কেমন আছেন?"
        else if String.eqb role "student" then
          mret "হ্যালো! কেমন আছো? আজকে ক্লাস কেমন গেছে?"
        else
          mret ("আসসালামু আলাইকুম, " +:+ current_user +:+ "! কেমন আছেন?")
      else
        if String.eqb role "principal" then
          mret "Good day, Principal! It's wonderful to see you."
        else if String.eqb role "teacher" then
          mret "Hello, Sir! How are you today?"
        else if String.eqb role "student" then
          mret "Hi there! How was your class today?"
        else
          mret ("Hello, " +:+ current_user +:+ "! Great to see you.")
  | None =>
      if String.eqb (language intent) "bn" then
        mret "আসসালামু আলাইকুম! আমি আপনার রোবট সহকারী। আমি আপনার সাথে কথা বলতে প্রস্তুত।"
      else
        mret "Hello! I'm your robot assistant. I'm ready to help you."
  end.

Definition _handle_question (intent : Intent) (current_user : option string)
  : Py string :=
  let topic := default "" (parameters intent !! "topic") in
  user_context ←
    match known current_user with
    | Some current_user =>
        user_info ← get_user_preferences env current_user;
        let role := get_role user_info in
        mret ("User role: " +:+ role +:+ ". ")
    | None => mret ""
    end;
  _ ← lift (ai_modules env);
  let prompt := (user_context +:+ "Question: " +:+ topic) in
  try_except
    (ResponseRouter.get_response env prompt (language intent))
    (fun e => mret (_get_fallback_response (language intent))).

Definition _handle_entertainment (intent : Intent) (current_user : option string)
  : Py string :=
  _ ← lift (entertainment_module env);
  match known current_user with
  | Some current_user =>
      user_info ← get_user_preferences env current_user;
      let role := get_role user_info in
      if String.eqb role "principal" then
        mret (EntertainmentModule.get_professional_content (language intent))
      else if String.eqb role "student" then
        mret (EntertainmentModule.get_student_content env (language intent))
      else
        mret (EntertainmentModule.get_general_content env (language intent))
  | None =>
      mret (EntertainmentModule.get_general_content env (language intent))
  end.

Definition _handle_camera_capture (intent : Intent) (current_user : option string)
  : Py string :=
  _ ← lift (vision_imports env);
  try_except
    (_ ← lift (vision_ready env);
     let target := default "general" (parameters intent !! "target") in
     if String.eqb target "self" then
       photo_path ← lift (take_selfie env);
       if truthy_opt photo_path then
         let photo_path := default "" photo_path in
         if String.eqb (language intent) "bn" then
           mret ("আপনার ছবি তোলা হয়েছে! ছবিটি " +:+ photo_path +:+ " এ সংরক্ষিত হয়েছে।")
         else
           mret ("Your photo has been taken! Saved to " +:+ photo_path)
       else
         if String.eqb (language intent) "bn" then
           mret "দুঃখিত, ছবি তোলা যায়নি। আবার চেষ্টা করুন।"
         else
           mret "Sorry, couldn't take the photo. Please try again."
     else
       photo_path ← lift (take_photo env);
       if truthy_opt photo_path then
         let photo_path := default "" photo_path in
         if String.eqb (language intent) "bn" then
           mret ("ছবি তোলা হয়েছে! " +:+ photo_path +:+ " এ সংরক্ষিত হয়েছে।")
         else
           mret ("Photo taken! Saved to " +:+ photo_path)
       else
         if String.eqb (language intent) "bn" then
           mret "দুঃখিত, ছবি তোলা যায়নি।"
         else
           mret "Sorry, couldn't take the photo.")
    (fun e => mret (_get_error_response (language intent))).

(** The part of [_handle_movement] after the permission check. *)
Definition execute_movement (intent : Intent) (direction : string) : Py string :=
  try_except
    (_ ← lift (motion_module env);
     _ ← motion_call (motion_for direction);
     if String.eqb (language intent) "bn" then
       mret ("ঠিক আছে, আমি " +:+ direction +:+ " দিকে যাচ্ছি।")
     else
       mret ("Okay, moving " +:+ direction +:+ "."))
    (fun e => mret (_get_error_response (language intent))).

Definition _handle_movement (intent : Intent) (current_user : option string)
  : Py string :=
  let direction := default "" (parameters intent !! "direction") in
  match known current_user with
  | Some current_user =>
      user_info ← get_user_preferences env current_user;
      let role := get_role user_info in
      if negb (may_move role)
      then mret (movement_refusal (language intent))
      else execute_movement intent direction
  | None => execute_movement intent direction
  end.

Definition _handle_search (intent : Intent) (current_user : option string)
  : Py string :=
  let query := default "" (parameters intent !! "query") in
  if negb (truthy query) then
    if String.eqb (language intent) "bn" then
      mret "কি খুঁজতে চান? অনুগ্রহ করে স্পষ্ট করে বলুন।"
    else
      mret "What would you like me to search for? Please be more specific."
  else
    try_except
      (results ← lift (web_search env query);
       if truthy_opt results then
         let results := default "" results in
         _ ← lift (ai_modules env);
         let summary_prompt := ("Summarize this search result in " +:+ (language intent) +:+ ": " +:+ (PyStr.take_chars 500 results)) in
         ResponseRouter.get_response env summary_prompt (language intent)
       else
         if String.eqb (language intent) "bn" then
           mret ("'" +:+ query +:+ "' সম্পর্কে কোনো তথ্য পাইনি। আবার চেষ্টা করুন।")
         else
           mret ("Couldn't find information about '" +:+ query +:+ "'. Please try again."))
      (fun e => mret (_get_error_response (language intent))).

Definition _handle_unknown (intent : Intent) (current_user : option string)
  : Py string :=
  if String.eqb (language intent) "bn" then
    mret "দুঃখিত, আমি বুঝতে পারিনি। আপনি কি বলতে চেয়েছেন? আবার বলুন দয়া করে।"
  else
    mret "Sorry, I didn't understand. What would you like me to do? Please try again.".

(** [_initialize_handlers]: the dictionary from intent types to
    handlers; [COMMAND] and [FACE_RECOGNITION] are not keys. *)
Definition _initialize_handlers (t : IntentType)
  : option (Intent -> option string -> Py string) :=
  match t with
  | GREETING => Some _handle_greeting
  | QUESTION => Some _handle_question
  | ENTERTAINMENT => Some _handle_entertainment
  | CAMERA_CAPTURE => Some _handle_camera_capture
  | MOVEMENT => Some _handle_movement
  | SEARCH => Some _handle_search
  | UNKNOWN => Some _handle_unknown
  | COMMAND | FACE_RECOGNITION => None
  end.

Definition handle_intent
    (intent : Intent) (text language : string) (current_user : option string)
  : Py string :=
  try_except
    (_ ← add_conversation env current_user text language
           (value (type intent)) None None (confidence intent);
     let handler := default _handle_unknown (_initialize_handlers (type intent)) in
     response ← handler intent current_user;
     _ ← (if truthy response
          then add_conversation env current_user text language
                 (value (type intent)) (Some response) (Some language)
                 (confidence intent)
          else mret tt);
     mret response)
    (fun e => mret (_get_error_response language)).

End WithEnv.
End TaskManager.

(** ** A sample environment and world

    Every collaborator answers, the database is reachable and empty. *)

Module Sample.

Definition env : Env := {|
  db_available := true;
  isoformat := fun n => "2024-01-01T00:00:00";
  ai_modules := Return tt;
  ollama_chat := fun _ _ => Return (Some "Fine, thank you");
  entertainment_module := Return tt;
  bangla_jokes := [];
  english_jokes := ["Why did the robot cross the road?"];
  bangla_stories := [];
  english_stories := [];
  riddles := [];
  pick_kind := 0;
  pick_item := 0;
  vision_imports := Return tt;
  vision_ready := Return tt;
  take_selfie := Return None;
  take_photo := Return (Some "photo_1.jpg");
  motion_module := Return tt;
  motor := fun _ => Return tt;
  web_search := fun _ => Return None
|}.

Definition world : World := {|
  db := {| Memory.people := [];
           Memory.conversations := [];
           Memory.system_settings := [] |};
  clock := 0;
  motion_calls := []
|}.

(** A movement intent as [recognize] builds it for "move forward". *)
Definition move_forward_intent : IntentRecognizer.Intent :=
  IntentRecognizer.recognize "move forward" "en".

End Sample.

(** ** Words without white space at their ends *)

(** [ends_solid s]: [s] is not empty and does not end with white space. *)
Fixpoint ends_solid (s : string) : bool :=
  match s with
  | EmptyString => false
  | String c EmptyString => negb (PyStr.is_space c)
  | String _ r => ends_solid r
  end.

(** [begins_solid s]: [s] is not empty and does not begin with white space. *)
Definition begins_solid (s : string) : bool :=
  match s with
  | EmptyString => false
  | String c _ => negb (PyStr.is_space c)
  end.

(** ** White-space texts *)

(** [all_space s]: every character of [s] is white space (so is the empty
    text). *)
Fixpoint all_space (s : string) : bool :=
  match s with
  | EmptyString => true
  | String c r => PyStr.is_space c && all_space r
  end.

(** ** What a computation leaves alone *)

(** [keeps f m]: running [m] does not change the part [f] of the world,
    whether [m] returns or raises. *)
Definition keeps {A B : Type} (f : World -> B) (m : Py A) : Prop :=
  forall w, f (m w).2 = f w.

(** ** [core/memory.py]: the system settings *)

Module SystemSettings.
Import Memory MemoryManager.

Section WithEnv.
Context (env : Env).

(** [INSERT OR REPLACE INTO system_settings]: [key] is the primary key, so a
    row with the same key is replaced. *)
Definition replace_row (key value updated_at : string)
    (rows : list (string * string * string)) : list (string * string * string) :=
  List.filter (fun r => negb (String.eqb r.1.1 key)) rows ++ [(key, value, updated_at)].

Definition store_setting (key value updated_at : string) : Py unit := fun w =>
  (Return tt,
   {| db := {| people := people (db w);
               conversations := conversations (db w);
               system_settings :=
                 replace_row key value updated_at (system_settings (db w)) |};
      clock := clock w;
      motion_calls := motion_calls w |}).

Definition set_system_setting (key value : string) : Py unit :=
  timestamp ← now env;
  _ ← connect env;
  store_setting key value timestamp.

(** [get_system_setting(key, default)]: [row[0] if row else default]. *)
Definition get_system_setting (key : string) (default : option string)
  : Py (option string) :=
  _ ← connect env;
  gets (fun w =>
          match List.find (fun r => String.eqb r.1.1 key)
                          (system_settings (db w)) with
          | Some row => Some row.1.2
          | None => default
          end).

End WithEnv.
End SystemSettings.

(** ** [actions/motion.py]: speeds and servo positions

    The settings of a [MotionController] that its setters clamp.  [print]
    and the pause of [_set_servo_position] are not modelled. *)

Module MotionController.

Record Settings : Type := {
  motor_speed : Z;
  turn_speed : Z;
  servo_positions : gmap string Z
}.

(** [__init__] *)
Definition initial : Settings := {|
  motor_speed := 50;
  turn_speed := 30;
  servo_positions :=
    list_to_map [ ("head_pan", 90%Z); ("head_tilt", 90%Z); ("left_hand", 90%Z);
                  ("right_hand", 90%Z); ("left_arm", 90%Z); ("right_arm", 90%Z) ]
|}.

(** [self.motor_speed = max(1, min(100, speed))] *)
Definition set_motor_speed (speed : Z) (s : Settings) : Settings :=
  {| motor_speed := Z.max 1 (Z.min 100 speed);
     turn_speed := turn_speed s;
     servo_positions := servo_positions s |}.

(** [self.turn_speed = max(1, min(100, speed))] *)
Definition set_turn_speed (speed : Z) (s : Settings) : Settings :=
  {| motor_speed := motor_speed s;
     turn_speed := Z.max 1 (Z.min 100 speed);
     servo_positions := servo_positions s |}.

(** [_set_servo_position]: the position is clamped to [0, 180] and stored
    only for a servo the controller has. *)
Definition _set_servo_position (servo : string) (position : Z) (s : Settings)
  : Settings :=
  let position := Z.max 0 (Z.min 180 position) in
  match servo_positions s !! servo with
  | Some _ =>
      {| motor_speed := motor_speed s;
         turn_speed := turn_speed s;
         servo_positions := <[servo := position]> (servo_positions s) |}
  | None => s
  end.

End MotionController.

(** ** A school with one teacher, and a database that cannot be reached *)

Module Classroom.

Definition teacher : Memory.Person := {|
  Memory.name := "Rahim";
  Memory.face_encoding := "[]";
  Memory.role := "teacher";
  Memory.language_preference := "en";
  Memory.first_met := "2024-01-01T00:00:00";
  Memory.last_seen := "2024-01-01T00:00:00";
  Memory.interaction_count := 3;
  Memory.notes := ""
|}.

Definition world : World := {|
  db := {| Memory.people := [teacher];
           Memory.conversations := [];
           Memory.system_settings := [] |};
  clock := 0;
  motion_calls := []
|}.

(** The sample environment with the database out of reach. *)
Definition offline : Env := {|
  db_available := false;
  isoformat := isoformat Sample.env;
  ai_modules := ai_modules Sample.env;
  ollama_chat := ollama_chat Sample.env;
  entertainment_module := entertainment_module Sample.env;
  bangla_jokes := bangla_jokes Sample.env;
  english_jokes := english_jokes Sample.env;
  bangla_stories := bangla_stories Sample.env;
  english_stories := english_stories Sample.env;
  riddles := riddles Sample.env;
  pick_kind := pick_kind Sample.env;
  pick_item := pick_item Sample.env;
  vision_imports := vision_imports Sample.env;
  vision_ready := vision_ready Sample.env;
  take_selfie := take_selfie Sample.env;
  take_photo := take_photo Sample.env;
  motion_module := motion_module Sample.env;
  motor := motor Sample.env;
  web_search := web_search Sample.env
|}.

End Classroom.

(** * Properties *)

(** ** Facts on the rational scores *)

Section Scores.
Import IntentRecognizer.

Lemma Qltb_lt (a b : Q) : Qltb a b = true <-> (a < b)%Q.
Proof.
  unfold Qltb. rewrite negb_true_iff. split.
  - intros H. apply Qnot_le_lt. intros Hle.
    apply Qle_bool_iff in Hle. congruence.
  - intros H. destruct (Qle_bool b a) eqn:E; [|reflexivity].
    apply Qle_bool_iff in E. exfalso. exact (Qlt_not_le _ _ H E).
Qed.

Lemma Qltb_ge (a b : Q) : Qltb a b = false <-> (b <= a)%Q.
Proof.
  unfold Qltb. rewrite negb_false_iff. apply Qle_bool_iff.
Qed.

Lemma py_max_cases (a b : Q) :
  (py_max a b = b /\ (a < b)%Q) \/ (py_max a b = a /\ (b <= a)%Q).
Proof.
  unfold py_max. destruct (Qltb a b) eqn:E.
  - left. split; [reflexivity|]. by apply Qltb_lt.
  - right. split; [reflexivity|]. by apply Qltb_ge.
Qed.

Lemma pattern_confidence_nonneg (text pattern : string) :
  (0 <= pattern_confidence text pattern)%Q.
Proof.
  unfold pattern_confidence.
  destruct (Re.search pattern text); [discriminate|].
  destruct (PyStr.split _) as [|pw pws]; [apply Qle_refl|].
  unfold Qle. simpl. lia.
Qed.

(** The running maximum of [_calculate_confidence], from any start. *)
Lemma max_fold_spec (text : string) (patterns : list string) (start : Q) :
  let r := fold_left (fun m p => py_max m (pattern_confidence text p))
                     patterns start in
  (start <= r)%Q /\
  (forall p, p ∈ patterns -> (pattern_confidence text p <= r)%Q) /\
  (r = start \/ exists p, p ∈ patterns /\ r = pattern_confidence text p).
Proof.
  revert start. induction patterns as [|p ps IH]; intros start; simpl.
  - split; [apply Qle_refl|]. split; [|by left].
    intros p Hp. by apply elem_of_nil in Hp.
  - destruct (IH (py_max start (pattern_confidence text p))) as (Hge & Hall & Hwho).
    destruct (py_max_cases start (pattern_confidence text p)) as [[Hm Hlt]|[Hm Hle]];
      rewrite Hm in *.
    + split; [eapply Qle_trans; [apply Qlt_le_weak, Hlt | exact Hge]|].
      split.
      * intros q Hq. apply elem_of_cons in Hq as [->|Hq]; [exact Hge|by apply Hall].
      * right. destruct Hwho as [->|(q & Hq & ->)].
        -- exists p. split; [apply list_elem_of_here|reflexivity].
        -- exists q. split; [by apply list_elem_of_further|reflexivity].
    + split; [exact Hge|]. split.
      * intros q Hq. apply elem_of_cons in Hq as [->|Hq].
        -- eapply Qle_trans; [exact Hle | exact Hge].
        -- by apply Hall.
      * destruct Hwho as [->|(q & Hq & ->)]; [by left|].
        right. exists q. split; [by apply list_elem_of_further|reflexivity].
Qed.

Lemma calculate_confidence_nonneg (text : string) (patterns : list string) :
  (0 <= _calculate_confidence text patterns)%Q.
Proof. apply (max_fold_spec text patterns 0%Q). Qed.

Lemma calculate_confidence_upper (text : string) (patterns : list string) p :
  p ∈ patterns ->
  (pattern_confidence text p <= _calculate_confidence text patterns)%Q.
Proof. apply (max_fold_spec text patterns 0%Q). Qed.

(** A pattern set scores 0 exactly when each of its patterns does. *)
Lemma calculate_confidence_zero (text : string) (patterns : list string) :
  (_calculate_confidence text patterns == 0)%Q <->
  (forall p, p ∈ patterns -> (pattern_confidence text p == 0)%Q).
Proof.
  split.
  - intros Hz p Hp. apply Qle_antisym; [|apply pattern_confidence_nonneg].
    rewrite <- Hz. by apply calculate_confidence_upper.
  - intros Hall.
    destruct (max_fold_spec text patterns 0%Q) as (_ & _ & [H|(p & Hp & H)]).
    + unfold _calculate_confidence. rewrite H. reflexivity.
    + unfold _calculate_confidence. rewrite H. by apply Hall.
Qed.

(** The loop over the catalogue, from any state. *)
Lemma scan_fold_spec (text : string) (patterns : list (IntentType * list string))
    (start : option IntentType * Q) :
  let r := fold_left (scan_step text) patterns start in
  (start.2 <= r.2)%Q /\
  (forall e, e ∈ patterns -> (_calculate_confidence text e.2 <= r.2)%Q) /\
  (r = start \/
   exists e, e ∈ patterns /\ r = (Some e.1, _calculate_confidence text e.2) /\
             (start.2 < _calculate_confidence text e.2)%Q).
Proof.
  revert start. induction patterns as [|e es IH]; intros start; simpl.
  - split; [apply Qle_refl|]. split; [|by left].
    intros e He. by apply elem_of_nil in He.
  - destruct (IH (scan_step text start e)) as (Hge & Hall & Hwho).
    unfold scan_step in Hge, Hall, Hwho |- *.
    destruct (Qltb start.2 (_calculate_confidence text e.2)) eqn:E.
    + apply Qltb_lt in E. simpl in Hge.
      split; [eapply Qle_trans; [apply Qlt_le_weak, E | exact Hge]|].
      split.
      * intros q Hq. apply elem_of_cons in Hq as [->|Hq]; [exact Hge|by apply Hall].
      * right. destruct Hwho as [Hr|(q & Hq & Hr & Hlt)].
        -- exists e. split; [apply list_elem_of_here|]. by split.
        -- exists q. split; [by apply list_elem_of_further|]. split; [exact Hr|].
           simpl in Hlt. eapply Qlt_trans; [exact E | exact Hlt].
    + apply Qltb_ge in E.
      split; [exact Hge|]. split.
      * intros q Hq. apply elem_of_cons in Hq as [->|Hq].
        -- eapply Qle_trans; [exact E | exact Hge].
        -- by apply Hall.
      * destruct Hwho as [Hr|(q & Hq & Hr & Hlt)]; [by left|].
        right. exists q. split; [by apply list_elem_of_further|]. by split.
Qed.

(** The result of the loop started as [recognize] starts it. *)
Lemma scan_spec (text : string) (patterns : list (IntentType * list string)) :
  (forall e, e ∈ patterns ->
             (_calculate_confidence text e.2 <= (scan text patterns).2)%Q) /\
  (scan text patterns = (None, 0%Q) \/
   exists e, e ∈ patterns /\
             scan text patterns = (Some e.1, _calculate_confidence text e.2) /\
             (0 < _calculate_confidence text e.2)%Q).
Proof.
  destruct (scan_fold_spec text patterns (None, 0%Q)) as (_ & Hall & Hwho).
  split; [exact Hall | exact Hwho].
Qed.

End Scores.

(** ** The recogniser *)

Section Recognizer.
Import IntentRecognizer.

Lemma recognize_type (text language : string) :
  type (recognize text language) =
  default UNKNOWN (scan (normalize text) (patterns_for language)).1.
Proof. reflexivity. Qed.

Lemma recognize_confidence (text language : string) :
  confidence (recognize text language) =
  (scan (normalize text) (patterns_for language)).2.
Proof. reflexivity. Qed.

Lemma recognize_parameters (text language : string) :
  parameters (recognize text language) =
  if Qle_bool confidence_threshold (confidence (recognize text language))
  then match (scan (normalize text) (patterns_for language)).1 with
       | Some t => _extract_parameters (normalize text) t language
       | None => ∅
       end
  else ∅.
Proof. reflexivity. Qed.

(** [UNKNOWN] is not a key of either catalogue. *)
Lemma catalogue_keys (language : string) e :
  e ∈ patterns_for language -> e.1 <> UNKNOWN.
Proof.
  revert e. apply Forall_forall. unfold patterns_for.
  destruct (String.eqb language "bn");
    repeat (constructor; [discriminate|]); constructor.
Qed.

(** What [recognize] returns, by the two ways the loop can end. *)
Lemma recognize_cases (text language : string) :
  let r := recognize text language in
  let t := normalize text in
  (forall e, e ∈ patterns_for language ->
             (_calculate_confidence t e.2 <= confidence r)%Q) /\
  ((type r = UNKNOWN /\ confidence r = 0%Q /\ parameters r = ∅) \/
   (exists pl, (type r, pl) ∈ patterns_for language /\
               confidence r = _calculate_confidence t pl /\
               (0 < confidence r)%Q /\ type r <> UNKNOWN)).
Proof.
  intros r t.
  destruct (scan_spec t (patterns_for language)) as (Hall & Hwho).
  split; [exact Hall|].
  subst r. rewrite recognize_parameters, recognize_type, recognize_confidence.
  fold t. destruct Hwho as [Hs|([k pl] & He & Hs & Hpos)]; rewrite Hs; simpl.
  - left. by repeat split.
  - right. exists pl. repeat split; try done.
    exact (catalogue_keys language _ He).
Qed.

End Recognizer.

Section RecognizerClaims.
Import IntentRecognizer.

(** C2.  For every text and language, [recognize] returns kind [UNKNOWN],
    confidence 0 and no parameters if and only if every pattern of every
    kind of the language's catalogue scores 0 on the normalised text;
    otherwise the kind returned is a key of the catalogue whose pattern set
    has the largest score of all, and that score is the confidence,
    whatever its position with respect to the threshold. *)
Theorem recognize_unknown_iff_all_zero (text language : string) :
  let r := recognize text language in
  let t := normalize text in
  let all_zero :=
    forall e p, e ∈ patterns_for language -> p ∈ e.2 ->
                (pattern_confidence t p == 0)%Q in
  ((type r = UNKNOWN /\ (confidence r == 0)%Q /\ parameters r = ∅)
   <-> all_zero) /\
  (~ all_zero ->
   exists pl, (type r, pl) ∈ patterns_for language /\
              (confidence r == _calculate_confidence t pl)%Q /\
              forall e, e ∈ patterns_for language ->
                (_calculate_confidence t e.2 <= _calculate_confidence t pl)%Q).
Proof.
  intros r t all_zero.
  destruct (recognize_cases text language) as (Hall & Hwho).
  fold r t in Hall, Hwho.
  destruct Hwho as [(Hty & Hc & Hp)|(pl & Hin & Hc & Hpos & Hne)].
  - assert (Hz : all_zero).
    { intros e p He Hp'. apply (calculate_confidence_zero t e.2); [|exact Hp'].
      apply Qle_antisym; [|apply calculate_confidence_nonneg].
      specialize (Hall e He). by rewrite Hc in Hall. }
    split; [|intros Hn; by destruct Hn].
    split; [intros _; exact Hz|]. intros _. rewrite Hc. by repeat split.
  - assert (Hn : ~ all_zero).
    { intros Hz. rewrite Hc in Hpos.
      assert (Hzero : (_calculate_confidence t pl == 0)%Q).
      { apply calculate_confidence_zero. intros p Hp. exact (Hz _ p Hin Hp). }
      rewrite Hzero in Hpos. by apply Qlt_irrefl in Hpos. }
    split.
    + split; [intros (Hty & _); by destruct Hne | intros Hz; by destruct Hn].
    + intros _. exists pl. split; [exact Hin|]. split; [by rewrite Hc|].
      intros e He. rewrite <- Hc. by apply Hall.
Qed.

(** C5.  For every text and language: when the confidence is below the
    threshold 0.6 the parameters are empty, and a positive confidence still
    comes with the best-scoring kind of the catalogue (not [UNKNOWN]); when
    the confidence reaches the threshold the parameters are those
    [_extract_parameters] computes for the normalised text and that kind.
    So extraction takes place exactly when the confidence is at least 0.6. *)
Theorem recognize_threshold_gates_extraction (text language : string) :
  let r := recognize text language in
  let t := normalize text in
  ((confidence r < confidence_threshold)%Q ->
     parameters r = ∅ /\
     ((0 < confidence r)%Q ->
        type r <> UNKNOWN /\
        exists pl, (type r, pl) ∈ patterns_for language /\
                   confidence r = _calculate_confidence t pl /\
                   forall e, e ∈ patterns_for language ->
                     (_calculate_confidence t e.2 <= confidence r)%Q)) /\
  ((confidence_threshold <= confidence r)%Q ->
     type r <> UNKNOWN /\
     parameters r = _extract_parameters t (type r) language).
Proof.
  intros r t.
  destruct (recognize_cases text language) as (Hall & Hwho).
  fold r t in Hall, Hwho.
  assert (Hpar := recognize_parameters text language). fold r t in Hpar.
  assert (Hty := recognize_type text language). fold r t in Hty.
  clearbody r. split.
  - intros Hlt. split.
    + rewrite Hpar. destruct (Qle_bool _ _) eqn:E; [|reflexivity].
      apply Qle_bool_iff in E. by destruct (Qlt_not_le _ _ Hlt).
    + intros Hpos. destruct Hwho as [(_ & Hc & _)|(pl & Hin & Hc & _ & Hne)].
      * rewrite Hc in Hpos. by apply Qlt_irrefl in Hpos.
      * split; [exact Hne|]. exists pl. by repeat split.
  - intros Hge. destruct Hwho as [(_ & Hc & _)|(pl & Hin & Hc & _ & Hne)].
    + rewrite Hc in Hge. by destruct Hge.
    + split; [exact Hne|]. rewrite Hpar.
      apply Qle_bool_iff in Hge. rewrite Hge.
      destruct (scan t (patterns_for language)).1 as [k|]; simpl in Hty.
      * by rewrite Hty.
      * by destruct Hne.
Qed.

(** C4 (what the code does).  The English text "a a" is given confidence 2:
    each of its two words lies inside the single word of the pattern
    [what\s+], and the number of matching words of the text is divided by
    the number of words of the pattern. *)
Lemma recognize_confidence_above_one :
  type (recognize "a a" "en") = QUESTION /\
  (confidence (recognize "a a" "en") == 2)%Q /\
  ~ (confidence (recognize "a a" "en") <= 1)%Q.
Proof.
  split; [by vm_compute|]. split; [by vm_compute|].
  intros H. vm_compute in H. by apply H.
Qed.

(** The confidence is never negative. *)
Lemma recognize_confidence_nonneg (text language : string) :
  (0 <= confidence (recognize text language))%Q.
Proof.
  destruct (recognize_cases text language) as (_ & [(_ & Hc & _)|(pl & _ & _ & Hpos & _)]).
  - rewrite Hc. apply Qle_refl.
  - by apply Qlt_le_weak.
Qed.

(** C6 as stated fails: the text is classified as a question, and no query
    is extracted. *)
Lemma search_for_weather_is_not_search :
  type (recognize "search for weather in Dhaka" "en") = QUESTION /\
  parameters (recognize "search for weather in Dhaka" "en") =
    {[ "topic" := "search for weather in dhaka" ]} /\
  ~ (type (recognize "search for weather in Dhaka" "en") = SEARCH /\
     (confidence_threshold <=
        confidence (recognize "search for weather in Dhaka" "en"))%Q /\
     parameters (recognize "search for weather in Dhaka" "en") !! "query" =
       Some "weather in Dhaka").
Proof.
  split; [by vm_compute|]. split; [by vm_compute|].
  intros (H & _). vm_compute in H. discriminate H.
Qed.

(** C6 (amended).  The text "search for weather in Dhaka" is normalised to
    lower case; on the normalised text the [SEARCH] pattern set of the
    English catalogue scores 1, which is above the threshold, and the
    [SEARCH] extraction yields the query "weather in dhaka": the normalised
    text with the trigger "search for" removed and trimmed. *)
Theorem search_for_weather_query :
  let t := normalize "search for weather in Dhaka" in
  t = "search for weather in dhaka" /\
  (exists pl, (SEARCH, pl) ∈ patterns_for "en" /\
              (_calculate_confidence t pl == 1)%Q /\
              (confidence_threshold <= _calculate_confidence t pl)%Q) /\
  _extract_parameters t SEARCH "en" = {[ "query" := "weather in dhaka" ]}.
Proof.
  split; [by vm_compute|]. split.
  - eexists. split.
    + unfold patterns_for, english_patterns. simpl.
      do 5 apply list_elem_of_further. apply list_elem_of_here.
    + split; [by vm_compute|]. intros H. vm_compute in H. discriminate H.
  - by vm_compute.
Qed.

End RecognizerClaims.

Section RecognizerWitnesses.
Import IntentRecognizer.

Lemma recognize_unknown_iff_all_zero_witness :
  type (recognize "zzz" "en") = UNKNOWN /\
  (confidence (recognize "zzz" "en") == 0)%Q /\
  parameters (recognize "zzz" "en") = ∅.
Proof.
  apply (proj2 (proj1 (recognize_unknown_iff_all_zero "zzz" "en"))).
  intros e p He Hp.
  assert (F : Forall (fun e : IntentType * list string =>
                        (_calculate_confidence (normalize "zzz") e.2 == 0)%Q)
                (patterns_for "en")).
  { unfold patterns_for. change (String.eqb "en" "bn") with false. cbv iota.
    unfold english_patterns. repeat (constructor; [by vm_compute|]).
    constructor. }
  rewrite Forall_forall in F.
  exact (proj1 (calculate_confidence_zero _ _) (F e He) p Hp).
Defined.

Lemma recognize_threshold_gates_extraction_witness :
  (parameters (recognize "good" "en") = ∅ /\
   type (recognize "good" "en") <> UNKNOWN) /\
  (type (recognize "hello" "en") <> UNKNOWN /\
   parameters (recognize "hello" "en") =
     _extract_parameters (normalize "hello") (type (recognize "hello" "en")) "en").
Proof.
  split.
  - destruct (proj1 (recognize_threshold_gates_extraction "good" "en"))
      as (Hpar & Hkind); [reflexivity|].
    split; [exact Hpar|]. apply Hkind. reflexivity.
  - apply (proj2 (recognize_threshold_gates_extraction "hello" "en")).
    intros H. vm_compute in H. discriminate H.
Defined.

End RecognizerWitnesses.

(** ** Substrings *)

Section Substrings.

Lemma startswith_app (p s : string) :
  PyStr.startswith p s = true <-> exists post, s = p +:+ post.
Proof.
  revert s. induction p as [|a p IH]; intros s; simpl.
  - split; [intros _; by exists s | done].
  - destruct s as [|b s].
    + split; [done | intros (post & H); discriminate H].
    + destruct (Ascii.eqb a b) eqn:E.
      * apply Ascii.eqb_eq in E as ->. rewrite IH. split.
        -- intros (post & ->). by exists post.
        -- intros (post & H). exists post. by injection H.
      * split; [done|]. intros (post & H). injection H as Hab _.
        apply Ascii.eqb_neq in E. by destruct E.
Qed.

(** [needle in hay] holds exactly when [hay] is some text, the needle,
    some text. *)
Lemma contains_app (needle hay : string) :
  PyStr.contains needle hay = true <->
  exists pre post, hay = pre +:+ needle +:+ post.
Proof.
  induction hay as [|c hay IH]; simpl.
  - rewrite orb_false_r, startswith_app. split.
    + intros (post & H). by exists "", post.
    + intros (pre & post & H). destruct pre; [by exists post | discriminate H].
  - rewrite orb_true_iff, IH, startswith_app. split.
    + intros [(post & H)|(pre & post & ->)].
      * by exists "", post.
      * by exists (String c pre), post.
    + intros ([|d pre] & post & H).
      * left. by exists post.
      * right. injection H as _ ->. by exists pre, post.
Qed.

Lemma string_app_assoc (a b c : string) : (a +:+ b) +:+ c = a +:+ b +:+ c.
Proof.
  induction a as [|x a IH]; [reflexivity|].
  change (String x ((a +:+ b) +:+ c) = String x (a +:+ b +:+ c)).
  by rewrite IH.
Qed.

Lemma contains_trans (a b c : string) :
  PyStr.contains a b = true -> PyStr.contains b c = true ->
  PyStr.contains a c = true.
Proof.
  rewrite !contains_app. intros (p1 & q1 & ->) (p2 & q2 & ->).
  exists (p2 +:+ p1), (q1 +:+ q2). by rewrite !string_app_assoc.
Qed.

End Substrings.

Section Normalisation.
Import IntentRecognizer.

Lemma lower_app (a b : string) :
  PyStr.lower (a +:+ b) = PyStr.lower a +:+ PyStr.lower b.
Proof.
  induction a as [|c a IH]; [reflexivity|].
  change (String (PyStr.lower_char c) (PyStr.lower (a +:+ b)) =
          String (PyStr.lower_char c) (PyStr.lower a +:+ PyStr.lower b)).
  by rewrite IH.
Qed.

(** Lower-casing the text keeps the occurrences of a lower-case word. *)
Lemma contains_lower (needle hay : string) :
  PyStr.lower needle = needle ->
  PyStr.contains needle hay = true ->
  PyStr.contains needle (PyStr.lower hay) = true.
Proof.
  intros Hn. rewrite !contains_app. intros (pre & post & ->).
  exists (PyStr.lower pre), (PyStr.lower post).
  by rewrite !lower_app, Hn.
Qed.

Lemma lstrip_app (pre x : string) :
  begins_solid x = true ->
  exists pre', PyStr.lstrip (pre +:+ x) = pre' +:+ x.
Proof.
  intros Hx. induction pre as [|c pre IH].
  - exists "". destruct x as [|d x]; [discriminate Hx|].
    change ("" +:+ String d x) with (String d x). simpl in Hx |- *.
    apply negb_true_iff in Hx. by rewrite Hx.
  - change (String c pre +:+ x) with (String c (pre +:+ x)). simpl.
    destruct (PyStr.is_space c); [exact IH|]. by exists (String c pre).
Qed.

Lemma rstrip_app (y post : string) :
  ends_solid y = true ->
  exists post', PyStr.rstrip (y +:+ post) = y +:+ post'.
Proof.
  induction y as [|c y IH]; [discriminate|]. intros Hy.
  change (String c y +:+ post) with (String c (y +:+ post)).
  destruct y as [|d y].
  - simpl in Hy. apply negb_true_iff in Hy.
    change ("" +:+ post) with post. simpl. rewrite Hy. simpl.
    by exists (PyStr.rstrip post).
  - change (ends_solid (String c (String d y))) with (ends_solid (String d y)) in Hy.
    destruct (IH Hy) as (post' & Hr).
    change (PyStr.rstrip (String c (String d y +:+ post))) with
      (let r' := PyStr.rstrip (String d y +:+ post) in
       if PyStr.is_space c && PyStr.is_empty r' then EmptyString
       else String c r').
    cbv zeta. rewrite Hr.
    change (String d y +:+ post') with (String d (y +:+ post')).
    simpl. rewrite andb_false_r. by exists post'.
Qed.

Lemma ends_solid_app (a b : string) :
  ends_solid b = true -> ends_solid (a +:+ b) = true.
Proof.
  intros Hb. induction a as [|c a IH]; [exact Hb|].
  change (String c a +:+ b) with (String c (a +:+ b)).
  destruct (a +:+ b) eqn:E; [discriminate IH | exact IH].
Qed.

(** Trimming the text keeps the occurrences of a word without white space
    at its ends. *)
Lemma contains_strip (needle hay : string) :
  begins_solid needle = true -> ends_solid needle = true ->
  PyStr.contains needle hay = true ->
  PyStr.contains needle (PyStr.strip hay) = true.
Proof.
  intros Hb He. rewrite !contains_app. intros (pre & post & ->).
  unfold PyStr.strip.
  assert (Hbx : begins_solid (needle +:+ post) = true).
  { destruct needle as [|c n]; [discriminate Hb | exact Hb]. }
  destruct (lstrip_app pre (needle +:+ post) Hbx) as (pre' & ->).
  rewrite <- !string_app_assoc.
  destruct (rstrip_app (pre' +:+ needle) post (ends_solid_app _ _ He))
    as (post' & ->).
  exists pre', post'. by rewrite string_app_assoc.
Qed.

Lemma contains_normalize (needle utterance : string) :
  PyStr.lower needle = needle ->
  begins_solid needle = true -> ends_solid needle = true ->
  PyStr.contains needle utterance = true ->
  PyStr.contains needle (normalize utterance) = true.
Proof.
  intros Hl Hb He H. unfold normalize.
  by apply contains_strip, contains_lower.
Qed.

End Normalisation.

Section CameraClaim.
Import IntentRecognizer.

(** C9.  In the English camera-capture extraction the result has
    [target = "self"] if and only if "my", "me" or "selfie" is a substring
    of the text; so every text in which "camera" occurs gets
    [target = "self"], because "me" occurs in "camera"; and so does the
    normalised text of every utterance in which "camera" occurs. *)
Theorem camera_target_self_iff_substring (text : string) :
  (_extract_parameters text CAMERA_CAPTURE "en" !! "target" = Some "self" <->
   PyStr.contains "my" text = true \/ PyStr.contains "me" text = true \/
   PyStr.contains "selfie" text = true) /\
  (PyStr.contains "camera" text = true ->
   _extract_parameters text CAMERA_CAPTURE "en" !! "target" = Some "self") /\
  (PyStr.contains "camera" text = true ->
   _extract_parameters (normalize text) CAMERA_CAPTURE "en" !! "target"
     = Some "self").
Proof.
  assert (Hcamera : forall t, PyStr.contains "camera" t = true ->
                              PyStr.contains "me" t = true).
  { intros t. by apply (contains_trans "me" "camera" t). }
  assert (Hiff :
    _extract_parameters text CAMERA_CAPTURE "en" !! "target" = Some "self" <->
    PyStr.contains "my" text = true \/ PyStr.contains "me" text = true \/
    PyStr.contains "selfie" text = true).
  { cbn [_extract_parameters]. change (String.eqb "en" "bn") with false.
    cbv iota. unfold PyStr.any_in, self_words_en. cbn [existsb].
    rewrite orb_false_r.
    destruct (PyStr.contains "my" text), (PyStr.contains "me" text),
      (PyStr.contains "selfie" text); cbn [orb];
      rewrite ?lookup_singleton_eq, ?lookup_empty;
      (split; [intros H; first [discriminate H | tauto]
              | intros [H|[H|H]]; first [discriminate H | reflexivity]]). }
  assert (Hnorm :
    PyStr.contains "me" (normalize text) = true ->
    _extract_parameters (normalize text) CAMERA_CAPTURE "en" !! "target"
      = Some "self").
  { cbn [_extract_parameters]. change (String.eqb "en" "bn") with false.
    cbv iota. unfold PyStr.any_in, self_words_en. cbn [existsb].
    intros ->. rewrite orb_true_r. apply lookup_singleton_eq. }
  split; [exact Hiff|]. split.
  - intros Hcam. apply Hiff. right. left. by apply Hcamera.
  - intros Hcam. apply Hnorm, Hcamera.
    by apply contains_normalize.
Qed.

Lemma camera_target_self_iff_substring_witness :
  PyStr.contains "camera" "open the camera" = true /\
  _extract_parameters "open the camera" CAMERA_CAPTURE "en" !! "target"
    = Some "self".
Proof.
  split; [reflexivity|].
  apply (proj1 (proj2 (camera_target_self_iff_substring "open the camera"))).
  reflexivity.
Defined.

End CameraClaim.

Section PermissionClaim.
Import SchoolRoleManager.

(** The table has exactly four roles. *)
Lemma role_permissions_lookup (role : string) (permissions : list string) :
  role_permissions !! role = Some permissions ->
  (role = "student" /\ permissions = ["ask_questions"; "request_help"; "entertainment"]) \/
  (role = "teacher" /\ permissions = ["ask_questions"; "request_help"; "entertainment";
                                      "take_photos"; "student_info"]) \/
  (role = "principal" /\ permissions = ["ask_questions"; "request_help"; "entertainment";
                                        "take_photos"; "student_info"; "reports";
                                        "system_control"]) \/
  (role = "admin" /\ permissions = ["all_permissions"]).
Proof.
  unfold role_permissions. intros H.
  apply elem_of_list_to_map_2 in H.
  repeat (apply elem_of_cons in H as [H|H]; [injection H as -> ->; tauto|]).
  by apply elem_of_nil in H.
Qed.

(** C7.  [check_permission] is a function of the role and the capability
    alone: it answers false for a role that is not in the table, true for
    [admin] whatever the capability, and for any other role of the table
    true exactly when the capability is listed for the role. *)
Theorem check_permission_spec (user_role action : string) :
  (role_permissions !! user_role = None ->
   check_permission user_role action = false) /\
  check_permission "admin" action = true /\
  (forall permissions,
     user_role <> "admin" ->
     role_permissions !! user_role = Some permissions ->
     (check_permission user_role action = true <-> action ∈ permissions)).
Proof.
  split; [|split].
  - unfold check_permission. by intros ->.
  - reflexivity.
  - intros permissions Hne Hl. unfold check_permission. rewrite Hl.
    destruct (role_permissions_lookup _ _ Hl)
      as [(_ & ->)|[(_ & ->)|[(_ & ->)|(-> & _)]]]; [| | |done];
      (rewrite bool_decide_false; [by rewrite bool_decide_eq_true|]);
      intros H; repeat (apply elem_of_cons in H as [H|H]; [discriminate H|]);
      by apply elem_of_nil in H.
Qed.

Lemma check_permission_spec_witness :
  role_permissions !! "visitor" = None /\
  check_permission "visitor" "take_photos" = false /\
  (check_permission "teacher" "take_photos" = true <->
   "take_photos" ∈ ["ask_questions"; "request_help"; "entertainment";
                    "take_photos"; "student_info"]).
Proof.
  split; [reflexivity|]. split.
  - apply (proj1 (check_permission_spec "visitor" "take_photos")). reflexivity.
  - apply (proj2 (proj2 (check_permission_spec "teacher" "take_photos")));
      [discriminate | reflexivity].
Defined.

End PermissionClaim.

(** ** Reasoning about computations *)

Section Outcomes.

Lemma post_ret {A : Type} (a : A) (P : A -> Prop) : P a -> post (mret a) P.
Proof. intros H w. exact H. Qed.

Lemma post_any {A : Type} (m : Py A) : post m (fun _ => True).
Proof. intros w. by destruct (m w) as [[a|e] w']. Qed.

Lemma post_bind {A B : Type} (m : Py A) (k : A -> Py B)
    (Q : A -> Prop) (P : B -> Prop) :
  post m Q -> (forall a, Q a -> post (k a) P) -> post (m ≫= k) P.
Proof.
  intros Hm Hk w. unfold mbind, Py_bind. specialize (Hm w).
  destruct (m w) as [[a|e] w']; [|exact I]. exact (Hk a Hm w').
Qed.

Lemma post_try {A : Type} (body : Py A) (handler : string -> Py A)
    (P : A -> Prop) :
  post body P -> (forall e, post (handler e) P) ->
  post (try_except body handler) P.
Proof.
  intros Hb Hh w. unfold try_except. specialize (Hb w).
  destruct (body w) as [[a|e] w']; [exact Hb|]. exact (Hh e w').
Qed.

(** A [try] whose handler returns cannot raise. *)
Lemma try_except_returns {A : Type} (body : Py A) (a0 : A) (P : A -> Prop) w :
  post body P -> P a0 ->
  exists a w', try_except body (fun e => mret a0) w = (Return a, w') /\ P a.
Proof.
  intros Hb H0. unfold try_except. specialize (Hb w).
  destruct (body w) as [[a|e] w'].
  - by exists a, w'.
  - by exists a0, w'.
Qed.

End Outcomes.

(** ** Every response text is non-empty *)

Section NonEmpty.

Lemma app_nonempty_l (a b : string) : a <> "" -> a +:+ b <> "".
Proof. destruct a as [|c a]; [done|]. intros _ H. discriminate H. Qed.

Lemma app_nonempty_r (a b : string) : b <> "" -> a +:+ b <> "".
Proof.
  destruct a as [|c a]; [done|]. intros _ H. discriminate H.
Qed.

End NonEmpty.

(** A literal, or a text that begins with one, is not empty. *)
Ltac text_nonempty :=
  first [ discriminate
        | apply app_nonempty_l; discriminate ].

Section RouterAndContent.

Lemma endswith_any_nonempty (suffixes : list string) (s : string) :
  Forall (fun x => x <> "") suffixes ->
  ResponseRouter.endswith_any suffixes s = true -> s <> "".
Proof.
  intros Hall H ->. unfold ResponseRouter.endswith_any in H.
  apply existsb_exists in H as (x & Hx & He).
  rewrite Forall_forall in Hall. apply list_elem_of_In in Hx.
  specialize (Hall x Hx). unfold PyStr.endswith in He.
  change (String.rev "") with "" in He.
  destruct (String.rev x) eqn:Er; [|discriminate He].
  destruct x as [|c x]; [done|].
  unfold String.rev in Er. simpl in Er.
  assert (Hlen : forall s acc, String.length (String.rev_app s acc)
                               = (String.length s + String.length acc)%nat).
  { clear. induction s as [|c s IH]; intros acc; simpl; [done|].
    rewrite IH. simpl. lia. }
  apply (f_equal String.length) in Er. rewrite Hlen in Er. simpl in Er. lia.
Qed.

Lemma post_process_nonempty (response language : string) :
  ResponseRouter._post_process_response response language <> "".
Proof.
  unfold ResponseRouter._post_process_response.
  destruct (String.eqb language "bn");
    match goal with
    | |- (if negb ?b then _ else _) <> _ => destruct b eqn:E
    end; simpl.
  - eapply endswith_any_nonempty; [|exact E].
    repeat (constructor; [discriminate|]); constructor.
  - apply app_nonempty_r. discriminate.
  - eapply endswith_any_nonempty; [|exact E].
    repeat (constructor; [discriminate|]); constructor.
  - apply app_nonempty_r. discriminate.
Qed.

Lemma router_fallback_nonempty (language : string) :
  ResponseRouter._get_fallback_response language <> "".
Proof.
  unfold ResponseRouter._get_fallback_response.
  destruct (String.eqb language "bn"); discriminate.
Qed.

(** [get_response] always returns, and returns some text. *)
Lemma post_get_response (env : Env) (user_input language : string) :
  post (ResponseRouter.get_response env user_input language)
       (fun s => s <> "").
Proof.
  unfold ResponseRouter.get_response.
  apply post_try; [|intros e; apply post_ret, router_fallback_nonempty].
  eapply post_bind; [apply post_any|]. intros [model prompt] _.
  eapply post_bind; [apply post_any|]. intros response _.
  destruct (truthy_opt response); apply post_ret.
  - apply post_process_nonempty.
  - apply router_fallback_nonempty.
Qed.

Lemma joke_nonempty (env : Env) (language : string) :
  EntertainmentModule.get_joke env language <> "".
Proof.
  unfold EntertainmentModule.get_joke, EntertainmentModule._get_fallback_joke.
  destruct (String.eqb language "bn");
    destruct (EntertainmentModule.choice _ _); text_nonempty.
Qed.

Lemma story_nonempty (env : Env) (language : string) :
  EntertainmentModule.get_story env language <> "".
Proof.
  unfold EntertainmentModule.get_story, EntertainmentModule._get_fallback_story.
  destruct (String.eqb language "bn");
    destruct (EntertainmentModule.choice _ _); text_nonempty.
Qed.

Lemma riddle_nonempty (env : Env) (language : string) :
  EntertainmentModule.get_riddle env language <> "".
Proof.
  unfold EntertainmentModule.get_riddle, EntertainmentModule._get_fallback_riddle.
  destruct (String.eqb language "bn");
    destruct (EntertainmentModule.choice _ _); text_nonempty.
Qed.

Lemma educational_story_nonempty (language : string) :
  EntertainmentModule.get_educational_story language <> "".
Proof.
  unfold EntertainmentModule.get_educational_story.
  destruct (String.eqb language "bn"); text_nonempty.
Qed.

Lemma general_content_nonempty (env : Env) (language : string) :
  EntertainmentModule.get_general_content env language <> "".
Proof.
  unfold EntertainmentModule.get_general_content.
  repeat match goal with |- (if ?b then _ else _) <> _ => destruct b end;
    auto using joke_nonempty, story_nonempty, riddle_nonempty.
Qed.

Lemma student_content_nonempty (env : Env) (language : string) :
  EntertainmentModule.get_student_content env language <> "".
Proof.
  unfold EntertainmentModule.get_student_content.
  repeat match goal with |- (if ?b then _ else _) <> _ => destruct b end;
    auto using joke_nonempty, educational_story_nonempty, riddle_nonempty.
Qed.

Lemma professional_content_nonempty (language : string) :
  EntertainmentModule.get_professional_content language <> "".
Proof.
  unfold EntertainmentModule.get_professional_content.
  destruct (String.eqb language "bn"); text_nonempty.
Qed.

Lemma error_response_nonempty (language : string) :
  TaskManager._get_error_response language <> "".
Proof.
  unfold TaskManager._get_error_response.
  destruct (String.eqb language "bn"); discriminate.
Qed.

End RouterAndContent.

(** ** The handlers return text *)

Ltac post_auto :=
  repeat match goal with
    | |- post (ResponseRouter.get_response _ _ _) _ => apply post_get_response
    | |- post (mret _) _ => apply post_ret
    | |- post (try_except _ _) _ => apply post_try; [|intros ?]
    | |- post (mbind _ _) _ => eapply post_bind; [apply post_any | intros ? _]
    | |- post (if ?b then _ else _) _ => destruct b
    | |- post (match ?x with _ => _ end) _ => destruct x
    end.

Section Handlers.
Import IntentRecognizer MemoryManager TaskManager.
Context (env : Env).

Lemma movement_refusal_nonempty (language : string) :
movement_refusal language <> "".
Proof. unfold movement_refusal. destruct (String.eqb language "bn"); discriminate. Qed.

Lemma post_handle_greeting intent current_user :
post (_handle_greeting env intent current_user) (fun s => s <> "").
Proof. unfold _handle_greeting. cbv zeta. post_auto; text_nonempty. Qed.

Lemma post_handle_question intent current_user :
post (_handle_question env intent current_user) (fun s => s <> "").
Proof.
unfold _handle_question. cbv zeta. post_auto.
unfold TaskManager._get_fallback_response.
destruct (String.eqb _ _); discriminate.
Qed.

Lemma post_handle_entertainment intent current_user :
post (_handle_entertainment env intent current_user) (fun s => s <> "").
Proof.
unfold _handle_entertainment. cbv zeta. post_auto;
  auto using professional_content_nonempty, student_content_nonempty,
             general_content_nonempty.
Qed.

Lemma post_handle_camera_capture intent current_user :
post (_handle_camera_capture env intent current_user) (fun s => s <> "").
Proof.
unfold _handle_camera_capture. cbv zeta. post_auto;
  first [text_nonempty | apply error_response_nonempty].
Qed.

Lemma post_execute_movement intent direction :
post (execute_movement env intent direction) (fun s => s <> "").
Proof.
unfold execute_movement. post_auto;
  first [text_nonempty | apply error_response_nonempty].
Qed.

Lemma post_handle_movement intent current_user :
post (_handle_movement env intent current_user) (fun s => s <> "").
Proof.
unfold _handle_movement. cbv zeta.
destruct (known current_user); [|apply post_execute_movement].
eapply post_bind; [apply post_any|]. intros info _.
destruct (negb _); [|apply post_execute_movement].
apply post_ret, movement_refusal_nonempty.
Qed.

Lemma post_handle_search intent current_user :
post (_handle_search env intent current_user) (fun s => s <> "").
Proof.
unfold _handle_search. cbv zeta. post_auto;
  first [text_nonempty | apply error_response_nonempty].
Qed.

Lemma post_handle_unknown intent current_user :
post (_handle_unknown intent current_user) (fun s => s <> "").
Proof. unfold _handle_unknown. post_auto; text_nonempty. Qed.

(** Whatever the kind, the handler the dispatcher selects returns text. *)
Lemma post_selected_handler intent current_user :
post (default _handle_unknown (_initialize_handlers env (type intent))
        intent current_user)
     (fun s => s <> "").
Proof.
destruct (type intent); simpl;
  auto using post_handle_greeting, post_handle_question,
    post_handle_entertainment, post_handle_camera_capture,
    post_handle_movement, post_handle_search, post_handle_unknown.
Qed.

End Handlers.

Section DispatcherClaims.
Import IntentRecognizer MemoryManager TaskManager.

(** C1.  For every intent, text, language and caller, in every world and
  whatever the collaborators answer (a handler that returns, a handler,
  a collaborator or the database that raises, a refused movement),
  [handle_intent] returns, and what it returns is a non-empty text. *)
Theorem handle_intent_returns_text
  (env : Env) (intent : Intent) (text language : string)
  (current_user : option string) (w : World) :
exists response w',
  handle_intent env intent text language current_user w = (Return response, w') /\
  response <> "".
Proof.
unfold handle_intent.
apply (try_except_returns _ _ (fun s => s <> ""));
  [|apply error_response_nonempty].
eapply post_bind; [apply post_any|]. intros _ _.
eapply post_bind; [apply post_selected_handler|]. intros response Hne.
eapply post_bind; [apply post_any|]. intros _ _.
by apply post_ret.
Qed.

(** C3 (what the code does).  A movement intent handled with no caller:
  the role check is skipped, the motion controller is called and the
  robot answers that it is moving. *)
Lemma movement_without_caller_moves :
(handle_intent Sample.env Sample.move_forward_intent "move forward" "en"
   None Sample.world).1 = Return "Okay, moving forward." /\
motion_calls (handle_intent Sample.env Sample.move_forward_intent
                "move forward" "en" None Sample.world).2 = [move_forward] /\
type Sample.move_forward_intent = MOVEMENT.
Proof. by vm_compute. Qed.

End DispatcherClaims.

(** ** The dispatcher with a reachable database *)

Section Dispatch.
Import IntentRecognizer MemoryManager TaskManager.
Context (env : Env) (Hdb : db_available env = true).

Lemma bind_return {A B : Type} (m : Py A) (k : A -> Py B) w a w' :
  m w = (Return a, w') -> (m ≫= k) w = k a w'.
Proof. intros H. unfold mbind, Py_bind. by rewrite H. Qed.

Lemma add_conversation_ok user text language kind response rlang conf w :
  add_conversation env user text language kind response rlang conf w =
  (Return tt,
   {| db := {| Memory.people := Memory.people (db w);
               Memory.conversations :=
                 Memory.conversations (db w) ++
                 [{| Memory.timestamp := isoformat env (clock w);
                     Memory.user_name := user;
                     Memory.input_text := text;
                     Memory.input_language := language;
                     Memory.intent_type := kind;
                     Memory.response_text := response;
                     Memory.response_language := rlang;
                     Memory.confidence := conf |}];
               Memory.system_settings := Memory.system_settings (db w) |};
      clock := S (clock w);
      motion_calls := motion_calls w |}).
Proof.
  unfold add_conversation, now, connect, insert_conversation, lift,
    mbind, Py_bind. by rewrite Hdb.
Qed.

(** With the database reachable, [handle_intent] logs the input, runs the
    selected handler and, for a non-empty response, logs the response. *)
Lemma handle_intent_logged intent text language current_user w response w1 :
  default _handle_unknown (_initialize_handlers env (type intent))
    intent current_user
    (add_conversation env current_user text language (value (type intent))
       None None (confidence intent) w).2 = (Return response, w1) ->
  response <> "" ->
  handle_intent env intent text language current_user w =
  (Return response,
   (add_conversation env current_user text language (value (type intent))
      (Some response) (Some language) (confidence intent) w1).2).
Proof.
  intros Hh Hne. unfold handle_intent, try_except.
  rewrite (bind_return _ _ w tt _ (add_conversation_ok _ _ _ _ _ _ _ w)).
  rewrite add_conversation_ok in Hh. simpl in Hh.
  rewrite (bind_return _ _ _ response w1 Hh).
  assert (Ht : truthy response = true) by (by destruct response).
  rewrite Ht.
  rewrite (bind_return _ _ w1 tt _ (add_conversation_ok _ _ _ _ _ _ _ w1)).
  by rewrite add_conversation_ok.
Qed.

(** The role [get_user_preferences] reports for a name. *)
Lemma get_user_preferences_role user w :
  exists info,
    get_user_preferences env user w = (Return info, w) /\
    get_role info =
      match List.find (fun p => String.eqb (Memory.name p) user)
                      (Memory.people (db w)) with
      | Some p => Memory.role p
      | None => "friend"
      end.
Proof.
  unfold get_user_preferences, get_person_by_name, get_conversation_history,
    connect, lift, gets, mbind, Py_bind. rewrite Hdb. simpl.
  destruct (List.find _ _) as [p|]; eexists; (split; [reflexivity|done]).
Qed.

(** The part of C3 that holds: a named caller whose role is not principal,
    teacher or admin (a name the database does not know counts as friend) is
    refused, and the motion controller is not called. *)
Lemma movement_refused_for_named_caller intent text language user w :
  type intent = MOVEMENT ->
  truthy user = true ->
  may_move
    match List.find (fun p => String.eqb (Memory.name p) user)
                    (Memory.people (db w)) with
    | Some p => Memory.role p
    | None => "friend"
    end = false ->
  exists w',
    handle_intent env intent text language (Some user) w =
      (Return (movement_refusal (IntentRecognizer.language intent)), w') /\
    motion_calls w' = motion_calls w.
Proof.
  intros Hty Hu Hrole. eexists. split.
  - apply handle_intent_logged; [|apply movement_refusal_nonempty].
    rewrite Hty. simpl. unfold _handle_movement, known. rewrite Hu.
    rewrite add_conversation_ok. simpl.
    match goal with |- (_ ≫= _) ?w1 = _ =>
      destruct (get_user_preferences_role user w1) as (info & Hget & Hr);
      rewrite (bind_return _ _ w1 info w1 Hget)
    end.
    simpl in Hr. rewrite Hr, Hrole. reflexivity.
  - by rewrite add_conversation_ok.
Qed.

End Dispatch.

Section DispatchClaims.
Import IntentRecognizer MemoryManager TaskManager.

(** C8.  A greeting intent handled with no caller, the database being
    reachable and the intent carrying the input language: the response is
    the general greeting of that language, which names nobody; exactly two
    rows are appended to [conversations], the first without response text,
    the second with the response and its language, both with intent type
    [greeting], the same input text and language; the [people] and
    [system_settings] tables and the motion record are unchanged. *)
Theorem greeting_without_caller_logs_twice
    (env : Env) (intent : Intent) (text language : string) (w : World) :
  db_available env = true ->
  type intent = GREETING ->
  IntentRecognizer.language intent = language ->
  let response :=
    if String.eqb language "bn" then
      "আসসালামু আলাইকুম! আমি আপনার রোবট সহকারী। আমি আপনার সাথে কথা বলতে প্রস্তুত।"
    else
      "Hello! I'm your robot assistant. I'm ready to help you." in
  let row := fun (t : nat) (response_text response_language : option string) =>
    {| Memory.timestamp := isoformat env t;
       Memory.user_name := None;
       Memory.input_text := text;
       Memory.input_language := language;
       Memory.intent_type := "greeting";
       Memory.response_text := response_text;
       Memory.response_language := response_language;
       Memory.confidence := confidence intent |} in
  handle_intent env intent text language None w =
  (Return response,
   {| db := {| Memory.people := Memory.people (db w);
               Memory.conversations :=
                 Memory.conversations (db w) ++
                 [row (clock w) None None;
                  row (S (clock w)) (Some response) (Some language)];
               Memory.system_settings := Memory.system_settings (db w) |};
      clock := S (S (clock w));
      motion_calls := motion_calls w |}).
Proof.
  intros Hdb Hty Hlang response row.
  rewrite (handle_intent_logged env Hdb intent text language None w response
             (add_conversation env None text language (value (type intent))
                None None (confidence intent) w).2).
  - rewrite !add_conversation_ok by exact Hdb. rewrite Hty. simpl.
    by rewrite <- app_assoc.
  - rewrite Hty. simpl. unfold _handle_greeting. simpl. rewrite Hlang.
    subst response. by destruct (String.eqb language "bn").
  - subst response. destruct (String.eqb language "bn"); discriminate.
Qed.

Lemma greeting_without_caller_logs_twice_witness :
  handle_intent Sample.env (recognize "Hello, how are you?" "en")
    "Hello, how are you?" "en" None Sample.world =
  (Return "Hello! I'm your robot assistant. I'm ready to help you.",
   {| db := {| Memory.people := [];
               Memory.conversations :=
                 [{| Memory.timestamp := "2024-01-01T00:00:00";
                     Memory.user_name := None;
                     Memory.input_text := "Hello, how are you?";
                     Memory.input_language := "en";
                     Memory.intent_type := "greeting";
                     Memory.response_text := None;
                     Memory.response_language := None;
                     Memory.confidence :=
                       confidence (recognize "Hello, how are you?" "en") |};
                  {| Memory.timestamp := "2024-01-01T00:00:00";
                     Memory.user_name := None;
                     Memory.input_text := "Hello, how are you?";
                     Memory.input_language := "en";
                     Memory.intent_type := "greeting";
                     Memory.response_text :=
                       Some "Hello! I'm your robot assistant. I'm ready to help you.";
                     Memory.response_language := Some "en";
                     Memory.confidence :=
                       confidence (recognize "Hello, how are you?" "en") |}];
               Memory.system_settings := [] |};
      clock := 2;
      motion_calls := [] |}).
Proof.
  apply (greeting_without_caller_logs_twice Sample.env
           (recognize "Hello, how are you?" "en") "Hello, how are you?" "en"
           Sample.world); [reflexivity | by vm_compute | reflexivity].
Defined.

(** C10.  For an intent of kind [COMMAND] or [FACE_RECOGNITION] no handler
    is registered; with the database reachable [handle_intent] runs the
    handler of unknown intents and returns its message, the one that says
    the robot did not understand, in the language of the intent. *)
Theorem unregistered_kinds_reach_unknown_handler
    (env : Env) (intent : Intent) (text language : string)
    (current_user : option string) (w : World) :
  db_available env = true ->
  type intent = COMMAND \/ type intent = FACE_RECOGNITION ->
  let message :=
    if String.eqb (IntentRecognizer.language intent) "bn" then
      "দুঃখিত, আমি বুঝতে পারিনি। আপনি কি বলতে চেয়েছেন? আবার বলুন দয়া করে।"
    else
      "Sorry, I didn't understand. What would you like me to do? Please try again." in
  _initialize_handlers env (type intent) = None /\
  (forall w0, _handle_unknown intent current_user w0 = (Return message, w0)) /\
  exists w', handle_intent env intent text language current_user w =
             (Return message, w').
Proof.
  intros Hdb Hty message.
  assert (Hun : forall w0,
            _handle_unknown intent current_user w0 = (Return message, w0)).
  { intros w0. unfold _handle_unknown. subst message.
    by destruct (String.eqb (IntentRecognizer.language intent) "bn"). }
  assert (Hnone : _initialize_handlers env (type intent) = None)
    by (by destruct Hty as [-> | ->]).
  split; [exact Hnone|]. split; [exact Hun|].
  eexists. apply (handle_intent_logged env Hdb).
  - rewrite Hnone. simpl. apply Hun.
  - subst message.
    destruct (String.eqb (IntentRecognizer.language intent) "bn"); discriminate.
Qed.

Lemma unregistered_kinds_reach_unknown_handler_witness :
  exists w',
    handle_intent Sample.env
      {| type := COMMAND; confidence := 1; parameters := ∅;
         original_text := "stop"; IntentRecognizer.language := "en" |}
      "stop" "en" None Sample.world =
    (Return "Sorry, I didn't understand. What would you like me to do? Please try again.",
     w').
Proof.
  apply (unregistered_kinds_reach_unknown_handler Sample.env
           {| type := COMMAND; confidence := 1; parameters := ∅;
              original_text := "stop"; IntentRecognizer.language := "en" |}
           "stop" "en" None Sample.world); [reflexivity | by left].
Defined.

End DispatchClaims.

(** * Further properties of the code *)

(** ** Normalisation *)

Section NormalisationFacts.
Import IntentRecognizer.

Lemma is_space_lower_char (c : ascii) :
  PyStr.is_space (PyStr.lower_char c) = PyStr.is_space c.
Proof. destruct c as [[] [] [] [] [] [] [] []]; reflexivity. Qed.













Lemma all_space_lstrip (s : string) : all_space s = true -> PyStr.lstrip s = "".
Proof.
  induction s as [|c s IH]; [reflexivity|]. simpl.
  intros [Hc Hs]%andb_true_iff. rewrite Hc. by apply IH.
Qed.

Lemma all_space_lower (s : string) : all_space (PyStr.lower s) = all_space s.
Proof.
  induction s as [|c s IH]; [reflexivity|]. simpl.
  by rewrite is_space_lower_char, IH.
Qed.

Lemma normalize_blank (text : string) :
  all_space text = true -> normalize text = "".
Proof.
  intros H. unfold normalize, PyStr.strip.
  rewrite all_space_lstrip; [reflexivity|]. by rewrite all_space_lower.
Qed.

End NormalisationFacts.

Section RecognizerExtras.
Import IntentRecognizer.


(** Nothing of either catalogue is found in the empty text. *)
Lemma recognize_blank_type (text language : string) :
  all_space text = true -> type (recognize text language) = UNKNOWN.
Proof.
  intros H. rewrite recognize_type, (normalize_blank text H).
  unfold patterns_for. destruct (String.eqb language "bn"); by vm_compute.
Qed.

(** X2.  An empty text, or one made of white space only, is recognised as
    [UNKNOWN] with confidence 0 and no parameters, in either catalogue. *)
Theorem recognize_blank (text language : string) :
  all_space text = true ->
  type (recognize text language) = UNKNOWN /\
  confidence (recognize text language) = 0%Q /\
  parameters (recognize text language) = ∅ /\
  original_text (recognize text language) = "".
Proof.
  intros H. unfold recognize. rewrite (normalize_blank text H).
  unfold patterns_for. destruct (String.eqb language "bn"); by vm_compute.
Qed.

Lemma recognize_blank_witness :
  type (recognize "   " "en") = UNKNOWN /\
  confidence (recognize "   " "en") = 0%Q /\
  parameters (recognize "   " "en") = ∅ /\
  original_text (recognize "   " "en") = "".
Proof. apply (recognize_blank "   " "en"). reflexivity. Defined.

End RecognizerExtras.

(** ** The order of the catalogue and the size of the scores *)

Section ScanOrder.
Import IntentRecognizer.

(** The loop over the catalogue keeps the first entry that reaches the
    largest score. *)
Lemma scan_fold_first (text : string) (patterns : list (IntentType * list string))
    (start : option IntentType * Q) :
  let r := fold_left (scan_step text) patterns start in
  (r = start /\
   forall e, e ∈ patterns -> (_calculate_confidence text e.2 <= start.2)%Q) \/
  (exists pre e post,
     patterns = (pre ++ e :: post)%list /\
     r = (Some e.1, _calculate_confidence text e.2) /\
     (start.2 < _calculate_confidence text e.2)%Q /\
     (forall x, x ∈ pre ->
        (_calculate_confidence text x.2 < _calculate_confidence text e.2)%Q) /\
     (forall x, x ∈ post ->
        (_calculate_confidence text x.2 <= _calculate_confidence text e.2)%Q)).
Proof.
  revert start. induction patterns as [|e es IH]; intros start; simpl.
  - left. split; [reflexivity|]. intros e He. by apply elem_of_nil in He.
  - specialize (IH (scan_step text start e)). unfold scan_step in IH |- *.
    destruct (Qltb start.2 (_calculate_confidence text e.2)) eqn:E.
    + apply Qltb_lt in E. right.
      destruct IH as [(Hr & Hall)|(pre & e' & post & -> & Hr & Hlt & Hpre & Hpost)].
      * exists [], e, es. simpl in Hall.
        split; [reflexivity|]. split; [exact Hr|]. split; [exact E|].
        split; [|exact Hall]. intros x Hx. by apply elem_of_nil in Hx.
      * simpl in Hlt. exists (e :: pre), e', post. repeat split; try done.
        -- eapply Qlt_trans; [exact E | exact Hlt].
        -- intros x Hx. apply elem_of_cons in Hx as [->|Hx]; [exact Hlt|by apply Hpre].
    + apply Qltb_ge in E.
      destruct IH as [(Hr & Hall)|(pre & e' & post & -> & Hr & Hlt & Hpre & Hpost)].
      * left. split; [exact Hr|]. intros x Hx.
        apply elem_of_cons in Hx as [->|Hx]; [exact E|by apply Hall].
      * right. exists (e :: pre), e', post. repeat split; try done.
        intros x Hx. apply elem_of_cons in Hx as [->|Hx]; [|by apply Hpre].
        eapply Qle_lt_trans; [exact E | exact Hlt].
Qed.

(** X3.  Ties are decided by the order of the catalogue: when [recognize]
    returns a kind other than [UNKNOWN], every kind listed before it scores
    strictly less than the confidence returned, and every kind listed after
    it scores at most that much. *)
Theorem recognize_first_best_wins (text language : string) :
  type (recognize text language) <> UNKNOWN ->
  exists pre pl post,
    patterns_for language
      = (pre ++ (type (recognize text language), pl) :: post)%list /\
    confidence (recognize text language) = _calculate_confidence (normalize text) pl /\
    (forall x, x ∈ pre ->
       (_calculate_confidence (normalize text) x.2
        < confidence (recognize text language))%Q) /\
    (forall x, x ∈ post ->
       (_calculate_confidence (normalize text) x.2
        <= confidence (recognize text language))%Q).
Proof.
  rewrite recognize_type, recognize_confidence. unfold scan.
  destruct (scan_fold_first (normalize text) (patterns_for language) (None, 0%Q))
    as [(Hr & _)|(pre & [k pl] & post & Hp & Hr & _ & Hpre & Hpost)];
    rewrite Hr; simpl; [done|].
  intros _. by exists pre, pl, post.
Qed.

Lemma recognize_first_best_wins_witness :
  exists pre pl post,
    patterns_for "en"
      = (pre ++ (type (recognize "search for weather in Dhaka" "en"), pl)
             :: post)%list /\
    confidence (recognize "search for weather in Dhaka" "en")
      = _calculate_confidence (normalize "search for weather in Dhaka") pl /\
    (forall x, x ∈ pre ->
       (_calculate_confidence (normalize "search for weather in Dhaka") x.2
        < confidence (recognize "search for weather in Dhaka" "en"))%Q) /\
    (forall x, x ∈ post ->
       (_calculate_confidence (normalize "search for weather in Dhaka") x.2
        <= confidence (recognize "search for weather in Dhaka" "en"))%Q).
Proof.
  apply (recognize_first_best_wins "search for weather in Dhaka" "en").
  by vm_compute.
Defined.

(** The score of one pattern is at most the number of words of the text, and
    at most 1 for a text without words. *)
Lemma pattern_confidence_bound (text pattern : string) :
  (pattern_confidence text pattern
   <= inject_Z (Z.of_nat (Nat.max 1 (length (PyStr.split text)))))%Q.
Proof.
  unfold pattern_confidence.
  destruct (Re.search pattern text).
  - unfold Qle. simpl. lia.
  - destruct (PyStr.split (PyStr.replace _ _ pattern)) as [|pw pws].
    + unfold Qle. simpl. lia.
    + assert (Hm := length_filter (fun w => word_hits (pw :: pws) w = true)
                      (PyStr.split text)).
      unfold Qle. cbn [Qnum Qden inject_Z].
      set (m := length (filter _ _)) in *.
      set (W := length (PyStr.split text)) in *.
      set (d := Pos.of_nat (length (pw :: pws))). nia.
Qed.

(** X4.  The confidence [recognize] returns is at most the number of words
    of the normalised text (at most 1 when the text has no word); with the
    lower bound 0 this is the range of the confidence. *)
Theorem recognize_confidence_bound (text language : string) :
  (0 <= confidence (recognize text language))%Q /\
  (confidence (recognize text language)
   <= inject_Z (Z.of_nat (Nat.max 1 (length (PyStr.split (normalize text))))))%Q.
Proof.
  split; [apply recognize_confidence_nonneg|].
  destruct (recognize_cases text language) as (_ & [(_ & Hc & _)|(pl & _ & Hc & _ & _)]);
    rewrite Hc.
  - unfold Qle. simpl. lia.
  - destruct (max_fold_spec (normalize text) pl 0%Q) as (_ & _ & [H|(p & _ & H)]);
      unfold _calculate_confidence; rewrite H.
    + unfold Qle. simpl. lia.
    + apply pattern_confidence_bound.
Qed.

(** At or above the threshold the parameters are the extracted ones. *)
Lemma threshold_reached_extracts (text language : string) :
  (confidence_threshold <= confidence (recognize text language))%Q ->
  type (recognize text language) <> UNKNOWN /\
  parameters (recognize text language) =
    _extract_parameters (normalize text) (type (recognize text language)) language.
Proof.
  intros Hge.
  destruct (recognize_cases text language) as (_ & [(_ & Hc & _)|(pl & _ & _ & _ & Hne)]).
  - rewrite Hc in Hge. by destruct Hge.
  - split; [exact Hne|]. rewrite recognize_parameters.
    apply Qle_bool_iff in Hge. rewrite Hge.
    rewrite recognize_type in Hne |- *.
    by destruct (scan (normalize text) (patterns_for language)).1 as [k|].
Qed.

(** X5.  When a pattern of the catalogue matches the normalised text as a
    regular expression, the confidence is at least 1: the result is not
    [UNKNOWN] and its parameters are those extracted for the kind returned. *)
Theorem recognize_exact_match (text language : string) e p :
  e ∈ patterns_for language -> p ∈ e.2 ->
  Re.search p (normalize text) = true ->
  (1 <= confidence (recognize text language))%Q /\
  type (recognize text language) <> UNKNOWN /\
  parameters (recognize text language) =
    _extract_parameters (normalize text) (type (recognize text language)) language.
Proof.
  intros He Hp Hs.
  assert (H1 : (1 <= confidence (recognize text language))%Q).
  { destruct (recognize_cases text language) as (Hall & _).
    eapply Qle_trans; [|exact (Hall e He)].
    eapply Qle_trans; [|exact (calculate_confidence_upper _ _ p Hp)].
    unfold pattern_confidence. rewrite Hs. apply Qle_refl. }
  split; [exact H1|].
  apply threshold_reached_extracts.
  eapply Qle_trans; [|exact H1]. unfold confidence_threshold, Qle. simpl. lia.
Qed.

Lemma recognize_exact_match_witness :
  (1 <= confidence (recognize "Hello there" "en"))%Q /\
  type (recognize "Hello there" "en") <> UNKNOWN /\
  parameters (recognize "Hello there" "en") =
    _extract_parameters (normalize "Hello there")
      (type (recognize "Hello there" "en")) "en".
Proof.
  apply (recognize_exact_match "Hello there" "en"
           (GREETING, ["hello"; "hi"; "hey"; "good morning"; "good afternoon";
                       "good evening"; "how are you"; "how do you do";
                       "nice to meet you"]) "hello").
  - apply list_elem_of_here.
  - apply list_elem_of_here.
  - reflexivity.
Defined.

End ScanOrder.


(** ** Extraction and the response router *)

Section ExtractionExtras.
Import IntentRecognizer.

(** X6.  The parameters extracted for a kind hold no key but the kind's own:
    [topic] for a question, [target] (with value [self]) for a camera
    capture, [direction] (one of the four directions) for a movement,
    [query] for a search; the other kinds get no parameter at all. *)
Theorem extract_parameters_keys
    (text language : string) (kind : IntentType) (key value : string) :
  _extract_parameters text kind language !! key = Some value ->
  (kind = QUESTION /\ key = "topic") \/
  (kind = CAMERA_CAPTURE /\ key = "target" /\ value = "self") \/
  (kind = MOVEMENT /\ key = "direction" /\
   value ∈ ["forward"; "backward"; "left"; "right"]) \/
  (kind = SEARCH /\ key = "query").
Proof.
  destruct kind; cbn [_extract_parameters];
    repeat match goal with
      | |- context [if ?b then _ else _] => destruct b
      | |- context [match search_query ?p ?t with _ => _ end] =>
          destruct (search_query p t)
      end;
    rewrite ?lookup_empty; try discriminate;
    intros [<- <-]%lookup_singleton_Some;
    first [ by left
          | right; left; by repeat split
          | solve [ right; right; left; repeat split; try done;
                    repeat first [apply list_elem_of_here
                                 | apply list_elem_of_further] ]
          | by repeat right ].
Qed.

Lemma extract_parameters_keys_witness :
  (MOVEMENT = QUESTION /\ "direction" = "topic") \/
  (MOVEMENT = CAMERA_CAPTURE /\ "direction" = "target" /\ "left" = "self") \/
  (MOVEMENT = MOVEMENT /\ "direction" = "direction" /\
   "left" ∈ ["forward"; "backward"; "left"; "right"]) \/
  (MOVEMENT = SEARCH /\ "direction" = "query").
Proof.
  apply (extract_parameters_keys "turn left" "en" MOVEMENT "direction" "left").
  reflexivity.
Defined.

End ExtractionExtras.

Section RouterExtras.
Import ResponseRouter.

Lemma rev_app_append (a b acc : string) :
  String.rev_app (a +:+ b) acc = String.rev_app b (String.rev_app a acc).
Proof.
  revert acc. induction a as [|c a IH]; intros acc; [reflexivity|].
  change (String c a +:+ b) with (String c (a +:+ b)). simpl. apply IH.
Qed.

Lemma rev_app_acc (p acc : string) :
  String.rev_app p acc = String.rev_app p "" +:+ acc.
Proof.
  revert acc. induction p as [|c p IH]; intros acc; [reflexivity|]. simpl.
  rewrite (IH (String c acc)), (IH (String c "")).
  by rewrite string_app_assoc.
Qed.

(** A text ends with what was appended to it. *)
Lemma endswith_append (s p : string) : PyStr.endswith p (s +:+ p) = true.
Proof.
  unfold PyStr.endswith, String.rev. apply startswith_app.
  exists (String.rev_app s ""). by rewrite rev_app_append, rev_app_acc.
Qed.

(** X9.  The text [_post_process_response] returns always ends with a
    sentence mark: [.], [!] or [?], and for Bangla also the danda. *)
Theorem post_process_ends_sentence (response language : string) :
  endswith_any
    (if String.eqb language "bn" then ["."; "!"; "?"; "।"]
     else ["."; "!"; "?"])
    (_post_process_response response language) = true.
Proof.
  unfold _post_process_response.
  destruct (String.eqb language "bn");
    match goal with
    | |- context [if negb ?b then _ else _] => destruct b eqn:E
    end; cbn [negb]; try exact E;
    unfold endswith_any; cbn [existsb]; rewrite endswith_append;
    by rewrite ?orb_true_r.
Qed.

(** [get_response] leaves the world as it is. *)
Lemma get_response_world
    (env : Env) (user_input language : string) (w : World) :
  (get_response env user_input language w).2 = w.
Proof.
  unfold get_response, try_except, mbind, Py_bind, lift, mret, Py_ret.
  destruct (_select_model_and_prompt language) as [[model prompt]|e];
    [|reflexivity].
  destruct (ollama_chat env _ model) as [response|e]; [|reflexivity].
  by destruct (truthy_opt response).
Qed.


(** No prompt is stored under [en_general] or [bn_general]. *)
Lemma get_response_missing_prompt
    (env : Env) (user_input language : string) (w : World) :
  language = "en" \/ language = "bn" ->
  get_response env user_input language w
    = (Return (_get_fallback_response language), w).
Proof. intros [-> | ->]; reflexivity. Qed.

(** X8.  For the two language codes of the system, [en] and [bn], the
    prompt table has no key [en_general] or [bn_general]: selecting the
    prompt raises [KeyError], the model is never asked, and [get_response]
    returns the fallback text of the language. *)
Theorem get_response_en_bn_is_fallback
    (env : Env) (user_input language : string) (w : World) :
  language = "en" \/ language = "bn" ->
  _select_model_and_prompt language = Raise "KeyError" /\
  get_response env user_input language w
    = (Return (_get_fallback_response language), w).
Proof.
  intros [-> | ->]; split; reflexivity.
Qed.

Lemma get_response_en_bn_is_fallback_witness :
  _select_model_and_prompt "en" = Raise "KeyError" /\
  get_response Sample.env "Question: the weather" "en" Sample.world
    = (Return (_get_fallback_response "en"), Sample.world).
Proof.
  apply (get_response_en_bn_is_fallback Sample.env "Question: the weather" "en"
           Sample.world).
  by left.
Defined.

End RouterExtras.

(** ** What the handlers leave alone *)

Section Keeping.
Context {A B : Type} (f : World -> B).

Lemma keeps_ret (a : A) : keeps f (mret a : Py A).
Proof. intros w. reflexivity. Qed.

Lemma keeps_lift (r : result A) : keeps f (lift r).
Proof. intros w. reflexivity. Qed.

Lemma keeps_gets (g : World -> A) : keeps f (gets g).
Proof. intros w. reflexivity. Qed.

Lemma keeps_bind {C : Type} (m : Py C) (k : C -> Py A) :
  keeps f m -> (forall c, keeps f (k c)) -> keeps f (m ≫= k).
Proof.
  intros Hm Hk w. unfold mbind, Py_bind. specialize (Hm w).
  destruct (m w) as [[c|e] w']; simpl in Hm |- *; [|exact Hm].
  by rewrite (Hk c w').
Qed.

Lemma keeps_try (body : Py A) (handler : string -> Py A) :
  keeps f body -> (forall e, keeps f (handler e)) ->
  keeps f (try_except body handler).
Proof.
  intros Hb Hh w. unfold try_except. specialize (Hb w).
  destruct (body w) as [[a|e] w']; simpl in Hb |- *; [exact Hb|].
  by rewrite (Hh e w').
Qed.

End Keeping.

Lemma bind_raise {A B : Type} (m : Py A) (k : A -> Py B) w e w' :
  m w = (Raise e, w') -> (m ≫= k) w = (Raise e, w').
Proof. intros H. unfold mbind, Py_bind. by rewrite H. Qed.

Lemma keeps_get_response {B : Type} (f : World -> B) env user_input language :
  keeps f (ResponseRouter.get_response env user_input language).
Proof.
  intros w. by rewrite (get_response_world env user_input language w).
Qed.

Lemma keeps_get_user_preferences {B : Type} (f : World -> B) env user :
  keeps f (MemoryManager.get_user_preferences env user).
Proof.
  unfold MemoryManager.get_user_preferences, MemoryManager.get_person_by_name,
    MemoryManager.get_conversation_history, MemoryManager.connect.
  apply keeps_bind; [apply keeps_bind; [apply keeps_lift|intros; apply keeps_gets]|].
  intros [p|]; [|apply keeps_ret].
  apply keeps_bind; [|intros; apply keeps_ret].
  apply keeps_bind; [apply keeps_lift|intros; apply keeps_gets].
Qed.

Ltac keeps_auto :=
  repeat match goal with
    | |- keeps _ (ResponseRouter.get_response _ _ _) => apply keeps_get_response
    | |- keeps _ (MemoryManager.get_user_preferences _ _) =>
        apply keeps_get_user_preferences
    | |- keeps _ (mret _) => apply keeps_ret
    | |- keeps _ (lift _) => apply keeps_lift
    | |- keeps _ (gets _) => apply keeps_gets
    | |- keeps _ (try_except _ _) => apply keeps_try; [|intros ?]
    | |- keeps _ (mbind _ _) => apply keeps_bind; [|intros ?]
    | |- keeps _ (if ?b then _ else _) => destruct b
    | |- keeps _ (match ?x with _ => _ end) => destruct x
    end.

Section HandlerFrames.
Import IntentRecognizer MemoryManager TaskManager.
Context (env : Env).

Lemma keeps_db_motion_call c : keeps db (motion_call env c).
Proof. intros w. reflexivity. Qed.

Lemma keeps_handle_greeting {B} (f : World -> B) intent user :
  keeps f (_handle_greeting env intent user).
Proof. unfold _handle_greeting. cbv zeta. keeps_auto. Qed.

Lemma keeps_handle_question {B} (f : World -> B) intent user :
  keeps f (_handle_question env intent user).
Proof. unfold _handle_question. cbv zeta. keeps_auto. Qed.

Lemma keeps_handle_entertainment {B} (f : World -> B) intent user :
  keeps f (_handle_entertainment env intent user).
Proof. unfold _handle_entertainment. cbv zeta. keeps_auto. Qed.

Lemma keeps_handle_camera_capture {B} (f : World -> B) intent user :
  keeps f (_handle_camera_capture env intent user).
Proof. unfold _handle_camera_capture. cbv zeta. keeps_auto. Qed.

Lemma keeps_handle_search {B} (f : World -> B) intent user :
  keeps f (_handle_search env intent user).
Proof. unfold _handle_search. cbv zeta. keeps_auto. Qed.

Lemma keeps_handle_unknown {B} (f : World -> B) intent user :
  keeps f (_handle_unknown intent user).
Proof. unfold _handle_unknown. keeps_auto. Qed.

Lemma keeps_db_handle_movement intent user :
  keeps db (_handle_movement env intent user).
Proof.
  unfold _handle_movement, execute_movement. cbv zeta. keeps_auto;
    apply keeps_db_motion_call.
Qed.

(** No handler writes to the database. *)
Lemma keeps_db_selected_handler intent user :
  keeps db (default _handle_unknown (_initialize_handlers env (type intent))
              intent user).
Proof.
  destruct (type intent); simpl;
    auto using keeps_handle_greeting, keeps_handle_question,
      keeps_handle_entertainment, keeps_handle_camera_capture,
      keeps_db_handle_movement, keeps_handle_search, keeps_handle_unknown.
Qed.

(** Only the movement handler calls the motion controller. *)
Lemma keeps_motion_selected_handler intent user :
  type intent <> MOVEMENT ->
  keeps motion_calls
    (default _handle_unknown (_initialize_handlers env (type intent))
       intent user).
Proof.
  intros Hne. destruct (type intent); simpl; try done;
    auto using keeps_handle_greeting, keeps_handle_question,
      keeps_handle_entertainment, keeps_handle_camera_capture,
      keeps_handle_search, keeps_handle_unknown.
Qed.

(** The movement handler makes no call, or the one its direction names. *)
Lemma handle_movement_calls intent user w :
  motion_calls (_handle_movement env intent user w).2 = motion_calls w \/
  motion_calls (_handle_movement env intent user w).2 =
    (motion_calls w ++ [motion_for (default "" (parameters intent !! "direction"))])%list.
Proof.
  assert (Hex : forall d w0,
    motion_calls (execute_movement env intent d w0).2 = motion_calls w0 \/
    motion_calls (execute_movement env intent d w0).2
      = (motion_calls w0 ++ [motion_for d])%list).
  { intros d w0. unfold execute_movement, try_except, mbind, Py_bind, lift,
      motion_call.
    destruct (motion_module env) as [[]|e]; [|by left].
    destruct (motor env (motion_for d)) as [[]|e];
      [destruct (String.eqb (language intent) "bn")|]; by right. }
  unfold _handle_movement. cbv zeta.
  destruct (known user) as [u|]; [|apply Hex].
  unfold mbind, Py_bind.
  assert (Hk := keeps_get_user_preferences (fun w => w) env u w).
  destruct (get_user_preferences env u w) as [[info|e] w1]; simpl in Hk; subst w1;
    [|by left].
  destruct (negb _); [by left | apply Hex].
Qed.

(** [add_conversation], with the database reachable or not. *)
Lemma add_conversation_down user text language kind response rlang conf w :
  db_available env = false ->
  add_conversation env user text language kind response rlang conf w =
  (Raise "sqlite3.OperationalError",
   {| db := db w; clock := S (clock w); motion_calls := motion_calls w |}).
Proof.
  intros H. unfold add_conversation, now, connect, insert_conversation, lift,
    mbind, Py_bind. by rewrite H.
Qed.

Lemma keeps_motion_add_conversation user text language kind response rlang conf :
  keeps motion_calls
    (add_conversation env user text language kind response rlang conf).
Proof.
  intros w. destruct (db_available env) eqn:E.
  - by rewrite add_conversation_ok.
  - by rewrite add_conversation_down.
Qed.

End HandlerFrames.


(** ** The dispatcher, step by step *)

Section DispatcherSteps.
Import IntentRecognizer MemoryManager TaskManager.
Context (env : Env).

(** With the database reachable: the input is logged, the selected handler
    runs in the world so obtained, and its outcome decides the rest. *)
Lemma handle_intent_steps intent text language user w :
  db_available env = true ->
  handle_intent env intent text language user w =
  match default _handle_unknown (_initialize_handlers env (type intent))
          intent user
          (add_conversation env user text language (value (type intent))
             None None (confidence intent) w).2 with
  | (Return response, w2) =>
      (Return response,
       if truthy response
       then (add_conversation env user text language (value (type intent))
               (Some response) (Some language) (confidence intent) w2).2
       else w2)
  | (Raise e, w2) => (Return (_get_error_response language), w2)
  end.
Proof.
  intros Hdb. unfold handle_intent, try_except.
  rewrite (bind_return _ _ w tt _ (add_conversation_ok env Hdb _ _ _ _ _ _ _ w)).
  rewrite (add_conversation_ok env Hdb). cbn [snd].
  match goal with
  | |- context [default _handle_unknown ?h intent user ?w1] =>
      destruct (default _handle_unknown h intent user w1) as [[response|e] w2] eqn:Hh
  end.
  - rewrite (bind_return _ _ _ response w2 Hh).
    destruct (truthy response).
    + rewrite (bind_return _ _ w2 tt _ (add_conversation_ok env Hdb _ _ _ _ _ _ _ w2)).
      by rewrite (add_conversation_ok env Hdb).
    + reflexivity.
  - by rewrite (bind_raise _ _ _ e w2 Hh).
Qed.

End DispatcherSteps.

Section DispatcherExtras.
Import IntentRecognizer MemoryManager TaskManager.

(** X11.  When the database cannot be reached the first logging call raises:
    [handle_intent] answers the error text of the language it was given, no
    handler runs, nothing is written and the motion controller is not
    called, whatever the intent and the caller. *)
Theorem handle_intent_database_down
    (env : Env) (intent : Intent) (text language : string)
    (user : option string) (w : World) :
  db_available env = false ->
  handle_intent env intent text language user w =
  (Return (_get_error_response language),
   {| db := db w; clock := S (clock w); motion_calls := motion_calls w |}).
Proof.
  intros Hdb. unfold handle_intent, try_except.
  by rewrite (bind_raise _ _ w _ _
                (add_conversation_down env _ _ _ _ _ _ _ w Hdb)).
Qed.

Lemma handle_intent_database_down_witness :
  handle_intent Classroom.offline Sample.move_forward_intent "move forward" "en"
    (Some "Rahim") Classroom.world =
  (Return (_get_error_response "en"),
   {| db := db Classroom.world; clock := 1; motion_calls := [] |}).
Proof.
  apply (handle_intent_database_down Classroom.offline
           Sample.move_forward_intent "move forward" "en" (Some "Rahim")
           Classroom.world).
  reflexivity.
Defined.

(** X12.  [handle_intent] only appends to the conversation log: the [people]
    and [system_settings] tables are unchanged, the rows already logged stay
    in place, and at most two rows are added, each carrying the caller, the
    input text, the input language and the kind of the intent. *)
Theorem handle_intent_appends_only
    (env : Env) (intent : Intent) (text language : string)
    (user : option string) (w : World) :
  let w' := (handle_intent env intent text language user w).2 in
  Memory.people (db w') = Memory.people (db w) /\
  Memory.system_settings (db w') = Memory.system_settings (db w) /\
  exists rows,
    Memory.conversations (db w') = (Memory.conversations (db w) ++ rows)%list /\
    (length rows <= 2)%nat /\
    Forall (fun row =>
              Memory.user_name row = user /\ Memory.input_text row = text /\
              Memory.input_language row = language /\
              Memory.intent_type row = value (type intent)) rows.
Proof.
  destruct (db_available env) eqn:Hdb.
  - rewrite (handle_intent_steps env intent text language user w Hdb).
    set (w1 := (add_conversation env user text language (value (type intent))
                  None None (confidence intent) w).2).
    assert (Hk := keeps_db_selected_handler env intent user w1).
    assert (H1 : db w1 =
                 {| Memory.people := Memory.people (db w);
                    Memory.conversations :=
                      Memory.conversations (db w) ++
                      [{| Memory.timestamp := isoformat env (clock w);
                          Memory.user_name := user;
                          Memory.input_text := text;
                          Memory.input_language := language;
                          Memory.intent_type := value (type intent);
                          Memory.response_text := None;
                          Memory.response_language := None;
                          Memory.confidence := confidence intent |}];
                    Memory.system_settings := Memory.system_settings (db w) |})
      by (subst w1; by rewrite (add_conversation_ok env Hdb)).
    rewrite H1 in Hk. clearbody w1.
    destruct (default _handle_unknown (_initialize_handlers env (type intent))
                intent user w1) as [[response|e] w2];
      cbn [snd] in Hk |- *.
    + destruct (truthy response).
      * rewrite (add_conversation_ok env Hdb). cbn [snd db]. rewrite Hk.
        cbn [Memory.people Memory.system_settings Memory.conversations].
        split; [reflexivity|]. split; [reflexivity|].
        eexists [_; _]. split; [by rewrite <- app_assoc|].
        split; [simpl; lia|]. by repeat constructor.
      * rewrite Hk. cbn [db Memory.people Memory.system_settings
                         Memory.conversations].
        split; [reflexivity|]. split; [reflexivity|].
        eexists [_]. split; [reflexivity|].
        split; [simpl; lia|]. by repeat constructor.
    + rewrite Hk. cbn [db Memory.people Memory.system_settings
                       Memory.conversations].
      split; [reflexivity|]. split; [reflexivity|].
      eexists [_]. split; [reflexivity|].
      split; [simpl; lia|]. by repeat constructor.
  - unfold handle_intent, try_except.
    rewrite (bind_raise _ _ w _ _
               (add_conversation_down env _ _ _ _ _ _ _ w Hdb)).
    cbn [snd db]. split; [reflexivity|]. split; [reflexivity|].
    exists []. split; [by rewrite app_nil_r|]. split; [simpl; lia | constructor].
Qed.

(** X13.  The motion controller is called at most once by [handle_intent],
    with the call the intent's direction names, and never for an intent
    whose kind is not movement. *)
Theorem handle_intent_motion
    (env : Env) (intent : Intent) (text language : string)
    (user : option string) (w : World) :
  let w' := (handle_intent env intent text language user w).2 in
  (type intent <> MOVEMENT -> motion_calls w' = motion_calls w) /\
  (motion_calls w' = motion_calls w \/
   motion_calls w' =
     (motion_calls w ++
      [motion_for (default "" (parameters intent !! "direction"))])%list).
Proof.
  cbv zeta. destruct (db_available env) eqn:Hdb.
  - rewrite (handle_intent_steps env intent text language user w Hdb).
    set (w1 := (add_conversation env user text language (value (type intent))
                  None None (confidence intent) w).2).
    assert (H1 : motion_calls w1 = motion_calls w)
      by apply keeps_motion_add_conversation.
    split.
    + intros Hne.
      assert (Hk := keeps_motion_selected_handler env intent user Hne w1).
      destruct (default _handle_unknown (_initialize_handlers env (type intent))
                  intent user w1) as [r w2]. cbn [snd] in Hk.
      destruct r as [response|e]; cbv beta iota; cbn [snd];
        [destruct (truthy response);
         [rewrite (keeps_motion_add_conversation env _ _ _ _ _ _ _ w2)|]|];
        congruence.
    + destruct (decide (type intent = MOVEMENT)) as [Hty|Hne].
      * rewrite Hty. cbn [_initialize_handlers default from_option id].
        assert (Hm := handle_movement_calls env intent user w1).
        destruct (_handle_movement env intent user w1) as [r w2].
        cbn [snd] in Hm. rewrite H1 in Hm.
        destruct r as [response|e]; cbv beta iota; cbn [snd];
          [destruct (truthy response);
           [rewrite (keeps_motion_add_conversation env _ _ _ _ _ _ _ w2)|]|];
          exact Hm.
      * left.
        assert (Hk := keeps_motion_selected_handler env intent user Hne w1).
        destruct (default _handle_unknown (_initialize_handlers env (type intent))
                    intent user w1) as [r w2]. cbn [snd] in Hk.
        destruct r as [response|e]; cbv beta iota; cbn [snd];
          [destruct (truthy response);
           [rewrite (keeps_motion_add_conversation env _ _ _ _ _ _ _ w2)|]|];
          congruence.
  - unfold handle_intent, try_except.
    rewrite (bind_raise _ _ w _ _
               (add_conversation_down env _ _ _ _ _ _ _ w Hdb)).
    cbn [snd motion_calls]. split; [done | by left].
Qed.

Lemma handle_intent_motion_witness :
  motion_calls
    (handle_intent Sample.env (recognize "tell me a joke" "en") "tell me a joke"
       "en" None Sample.world).2 = [].
Proof.
  apply (proj1 (handle_intent_motion Sample.env (recognize "tell me a joke" "en")
                  "tell me a joke" "en" None Sample.world)).
  by vm_compute.
Defined.

(** X14.  A movement asked by a caller the database knows as principal,
    teacher or admin, with the controller answering: the call the direction
    names is made, once, and the robot says where it is moving; without a
    direction the call is [wave_hand]. *)
Theorem movement_for_authorised_caller
    (env : Env) (intent : Intent) (text language user : string)
    (person : Memory.Person) (w : World) :
  db_available env = true ->
  type intent = MOVEMENT ->
  truthy user = true ->
  List.find (fun p => String.eqb (Memory.name p) user) (Memory.people (db w))
    = Some person ->
  may_move (Memory.role person) = true ->
  motion_module env = Return tt ->
  motor env (motion_for (default "" (parameters intent !! "direction")))
    = Return tt ->
  let direction := default "" (parameters intent !! "direction") in
  (handle_intent env intent text language (Some user) w).1 =
    Return (if String.eqb (IntentRecognizer.language intent) "bn"
            then ("ঠিক আছে, আমি " +:+ direction +:+ " দিকে যাচ্ছি।")
            else ("Okay, moving " +:+ direction +:+ ".")) /\
  motion_calls (handle_intent env intent text language (Some user) w).2 =
    (motion_calls w ++ [motion_for direction])%list /\
  motion_for "" = wave_hand.
Proof.
  intros Hdb Hty Hu Hfind Hrole Hmod Hmotor direction.
  rewrite (handle_intent_steps env intent text language (Some user) w Hdb).
  rewrite Hty. cbn [_initialize_handlers default from_option id].
  rewrite (add_conversation_ok env Hdb). cbn [snd].
  unfold _handle_movement, known. rewrite Hu. cbv zeta.
  match goal with |- context [(get_user_preferences env user ≫= ?k) ?w1] =>
    destruct (get_user_preferences_role env Hdb user w1) as (info & Hget & Hr);
    rewrite (bind_return _ k w1 info w1 Hget)
  end.
  cbn [db Memory.people] in Hr. rewrite Hfind in Hr. rewrite Hr, Hrole.
  cbn [negb]. unfold execute_movement, try_except, mbind, Py_bind, lift,
    motion_call. rewrite Hmod, Hmotor. fold direction.
  destruct (String.eqb (IntentRecognizer.language intent) "bn");
    cbn [mret Py_ret fst snd truthy PyStr.is_empty String.append negb];
    rewrite (add_conversation_ok env Hdb); cbn [snd motion_calls];
    by repeat split.
Qed.

Lemma movement_for_authorised_caller_witness :
  (handle_intent Sample.env Sample.move_forward_intent "move forward" "en"
     (Some "Rahim") Classroom.world).1 = Return "Okay, moving forward." /\
  motion_calls
    (handle_intent Sample.env Sample.move_forward_intent "move forward" "en"
       (Some "Rahim") Classroom.world).2 = [move_forward].
Proof.
  destruct (movement_for_authorised_caller Sample.env Sample.move_forward_intent
              "move forward" "en" "Rahim" Classroom.teacher Classroom.world)
    as (Hr & Hm & _); try reflexivity.
  split; [exact Hr | exact Hm].
Defined.

(** X15.  A caller who gives a name the database does not know is greeted
    by name in Bangla, whatever the language of the input: the missing
    preferences default to role [friend] and language [bn]. *)
Theorem greeting_for_unknown_name
    (env : Env) (intent : Intent) (text language user : string) (w : World) :
  db_available env = true ->
  type intent = GREETING ->
  truthy user = true ->
  List.find (fun p => String.eqb (Memory.name p) user) (Memory.people (db w))
    = None ->
  let current_user := user in
  (handle_intent env intent text language (Some user) w).1 =
    Return ("আসসালামু আলাইকুম, " +:+ current_user +:+ "! কেমন আছেন?").
Proof.
  intros Hdb Hty Hu Hfind current_user.
  rewrite (handle_intent_steps env intent text language (Some user) w Hdb).
  rewrite Hty. cbn [_initialize_handlers default from_option id].
  rewrite (add_conversation_ok env Hdb). cbn [snd].
  unfold _handle_greeting, known. rewrite Hu. cbv zeta.
  unfold get_user_preferences, get_person_by_name, connect, lift, gets,
    mbind, Py_bind. rewrite Hdb. cbn [db Memory.people]. rewrite Hfind.
  reflexivity.
Qed.

Lemma greeting_for_unknown_name_witness :
  (handle_intent Sample.env (recognize "hello" "en") "hello" "en"
     (Some "Karim") Sample.world).1 =
  Return (let current_user := "Karim" in ("আসসালামু আলাইকুম, " +:+ current_user +:+ "! কেমন আছেন?")).
Proof.
  apply (greeting_for_unknown_name Sample.env (recognize "hello" "en") "hello"
           "en" "Karim" Sample.world); reflexivity.
Defined.

(** X16.  A question in language [en] or [bn] never reaches the model: with
    the database reachable and the AI modules loading, the answer is the
    router's fallback text, whatever the topic, the caller and the model. *)
Theorem question_answer_is_fallback
    (env : Env) (intent : Intent) (text language : string)
    (user : option string) (w : World) :
  db_available env = true ->
  type intent = QUESTION ->
  ai_modules env = Return tt ->
  IntentRecognizer.language intent = "en" \/
  IntentRecognizer.language intent = "bn" ->
  (handle_intent env intent text language user w).1 =
    Return (ResponseRouter._get_fallback_response (IntentRecognizer.language intent)).
Proof.
  intros Hdb Hty Hai Hlang.
  rewrite (handle_intent_steps env intent text language user w Hdb).
  rewrite Hty. cbn [_initialize_handlers default from_option id].
  rewrite (add_conversation_ok env Hdb). cbn [snd].
  unfold _handle_question. cbv zeta.
  assert (Hq : forall prompt w0,
    try_except
      (ResponseRouter.get_response env prompt (IntentRecognizer.language intent))
      (fun e => mret (_get_fallback_response (IntentRecognizer.language intent)))
      w0 = (Return (ResponseRouter._get_fallback_response
                      (IntentRecognizer.language intent)), w0)).
  { intros prompt w0. unfold try_except.
    by rewrite (get_response_missing_prompt env prompt _ w0 Hlang). }
  assert (Hne := router_fallback_nonempty (IntentRecognizer.language intent)).
  destruct (known user) as [u|].
  - match goal with |- context [((get_user_preferences env u ≫= ?k1) ≫= ?k) ?w1] =>
      destruct (get_user_preferences_role env Hdb u w1) as (info & Hget & _);
      rewrite (bind_return _ k w1 _ w1
                 (bind_return _ k1 w1 info w1 Hget))
    end.
    unfold mbind at 1, Py_bind at 1, lift. rewrite Hai, Hq.
    destruct (ResponseRouter._get_fallback_response _); [done|reflexivity].
  - unfold mbind, Py_bind, lift, mret, Py_ret. rewrite Hai, Hq.
    destruct (ResponseRouter._get_fallback_response _); [done|reflexivity].
Qed.

Lemma question_answer_is_fallback_witness :
  (handle_intent Sample.env (recognize "why is the sky blue" "en")
     "why is the sky blue" "en" None Sample.world).1 =
  Return (ResponseRouter._get_fallback_response "en").
Proof.
  apply (question_answer_is_fallback Sample.env
           (recognize "why is the sky blue" "en") "why is the sky blue" "en"
           None Sample.world); [reflexivity | by vm_compute | reflexivity | by left].
Defined.

(** X17.  Recognition and dispatch together: an utterance that is empty or
    made of white space only is answered, with the database reachable, by
    the message that the robot did not understand, in the language given. *)
Theorem blank_utterance_not_understood
    (env : Env) (text language : string) (user : option string) (w : World) :
  db_available env = true ->
  all_space text = true ->
  (handle_intent env (recognize text language) text language user w).1 =
    Return (if String.eqb language "bn"
            then "দুঃখিত, আমি বুঝতে পারিনি। আপনি কি বলতে চেয়েছেন? আবার বলুন দয়া করে।"
            else "Sorry, I didn't understand. What would you like me to do? Please try again.").
Proof.
  intros Hdb Hblank.
  rewrite (handle_intent_steps env _ text language user w Hdb).
  rewrite (recognize_blank_type text language Hblank). cbn [_initialize_handlers default from_option id].
  unfold _handle_unknown.
  change (IntentRecognizer.language (recognize text language)) with language.
  by destruct (String.eqb language "bn").
Qed.

Lemma blank_utterance_not_understood_witness :
  (handle_intent Sample.env (recognize "  " "en") "  " "en" None Sample.world).1 =
  Return "Sorry, I didn't understand. What would you like me to do? Please try again.".
Proof.
  apply (blank_utterance_not_understood Sample.env "  " "en" None Sample.world);
    reflexivity.
Defined.

(** A search intent without a query, or with an empty one, is answered
    by the request to say what to search for: the web search and the model
    are not called and the world is unchanged. *)
Theorem search_without_query
    (env : Env) (intent : Intent) (user : option string) (w : World) :
  truthy (default "" (parameters intent !! "query")) = false ->
  _handle_search env intent user w =
  (Return (if String.eqb (IntentRecognizer.language intent) "bn"
           then "কি খুঁজতে চান? অনুগ্রহ করে স্পষ্ট করে বলুন।"
           else "What would you like me to search for? Please be more specific."), w).
Proof.
  intros Hq. unfold _handle_search. cbv zeta. rewrite Hq. cbn [negb].
  by destruct (String.eqb (IntentRecognizer.language intent) "bn").
Qed.

Lemma search_without_query_witness :
  _handle_search Sample.env (recognize "internet search cats" "en") None
    Sample.world =
  (Return "What would you like me to search for? Please be more specific.",
   Sample.world).
Proof.
  apply (search_without_query Sample.env
           (recognize "internet search cats" "en") None Sample.world).
  by vm_compute.
Defined.

(** A search whose query finds nothing (the searcher returns [None] or
    an empty text) is answered by the message that no information was found,
    which quotes the query; the model is not called. *)
Theorem search_without_results
    (env : Env) (intent : Intent) (user : option string) (w : World)
    (results : option string) :
  truthy (default "" (parameters intent !! "query")) = true ->
  web_search env (default "" (parameters intent !! "query")) = Return results ->
  truthy_opt results = false ->
  let query := default "" (parameters intent !! "query") in
  _handle_search env intent user w =
  (Return (if String.eqb (IntentRecognizer.language intent) "bn"
           then ("'" +:+ query +:+ "' সম্পর্কে কোনো তথ্য পাইনি। আবার চেষ্টা করুন।")
           else ("Couldn't find information about '" +:+ query +:+ "'. Please try again.")), w).
Proof.
  intros Hq Hs Hr query. unfold _handle_search. cbv zeta. rewrite Hq.
  cbn [negb]. unfold try_except, mbind, Py_bind, lift. rewrite Hs, Hr.
  by destruct (String.eqb (IntentRecognizer.language intent) "bn").
Qed.

Lemma search_without_results_witness :
  _handle_search Sample.env (recognize "google robots" "en") None Sample.world =
  (Return "Couldn't find information about 'robots'. Please try again.",
   Sample.world).
Proof.
  apply (search_without_results Sample.env (recognize "google robots" "en")
           None Sample.world None); [by vm_compute | reflexivity | reflexivity].
Defined.

End DispatcherExtras.

(** ** System settings, user preferences, roles and the motion settings *)

Section SettingsExtras.
Import Memory MemoryManager SystemSettings.

Lemma find_replace_row_same (key value stamp : string) rows :
  List.find (fun r : string * string * string => String.eqb r.1.1 key)
            (replace_row key value stamp rows) = Some (key, value, stamp).
Proof.
  unfold replace_row. induction rows as [|r rows IH]; simpl.
  - by rewrite String.eqb_refl.
  - destruct (String.eqb r.1.1 key) eqn:E; simpl; [exact IH|].
    by rewrite E.
Qed.

Lemma find_replace_row_other (key key' value stamp : string) rows :
  key' <> key ->
  List.find (fun r : string * string * string => String.eqb r.1.1 key')
            (replace_row key value stamp rows) =
  List.find (fun r : string * string * string => String.eqb r.1.1 key') rows.
Proof.
  intros Hne. unfold replace_row. induction rows as [|r rows IH]; simpl.
  - assert (E : String.eqb key key' = false)
      by (apply String.eqb_neq; congruence).
    by rewrite E.
  - destruct (String.eqb r.1.1 key) eqn:E; simpl.
    + apply String.eqb_eq in E.
      assert (E' : String.eqb r.1.1 key' = false)
        by (apply String.eqb_neq; congruence).
      by rewrite E'.
    + by destruct (String.eqb r.1.1 key').
Qed.

(** X18.  Settings round trip: with the database reachable, a setting just
    stored is the one read back, whatever the default; reading any other key
    gives what it gave before; the people and the conversations are
    untouched. *)
Theorem setting_read_after_write
    (env : Env) (key value : string) (default : option string) (w : World) :
  db_available env = true ->
  let w' := (set_system_setting env key value w).2 in
  (set_system_setting env key value w).1 = Return tt /\
  get_system_setting env key default w' = (Return (Some value), w') /\
  (forall key', key' <> key ->
     (get_system_setting env key' default w').1
     = (get_system_setting env key' default w).1) /\
  people (db w') = people (db w) /\
  conversations (db w') = conversations (db w).
Proof.
  intros Hdb. cbv zeta.
  unfold set_system_setting, get_system_setting, store_setting, now, connect,
    lift, gets, mbind, Py_bind. rewrite Hdb. cbn [fst snd db system_settings].
  split; [reflexivity|]. split.
  - by rewrite find_replace_row_same.
  - split; [|by split]. intros key' Hne. by rewrite find_replace_row_other.
Qed.

Lemma setting_read_after_write_witness :
  get_system_setting Sample.env "volume" None
    (set_system_setting Sample.env "volume" "7" Sample.world).2 =
  (Return (Some "7"), (set_system_setting Sample.env "volume" "7" Sample.world).2).
Proof.
  apply (setting_read_after_write Sample.env "volume" "7" None Sample.world).
  reflexivity.
Defined.

(** X19.  Storing a setting leaves exactly one row for its key, so keys that
    were unique stay unique; a key that was never stored reads as the
    default. *)
Theorem setting_key_stays_unique
    (env : Env) (key value : string) (default : option string) (w : World) :
  db_available env = true ->
  let keys := fun w0 : World => map (fun r => r.1.1) (system_settings (db w0)) in
  length (List.filter (String.eqb key)
            (keys (set_system_setting env key value w).2)) = 1%nat /\
  (NoDup (keys w) -> NoDup (keys (set_system_setting env key value w).2)) /\
  (key ∉ keys w -> get_system_setting env key default w = (Return default, w)).
Proof.
  intros Hdb keys. subst keys. cbv beta.
  unfold set_system_setting, get_system_setting, store_setting, now, connect,
    lift, gets, mbind, Py_bind. rewrite Hdb. cbn [fst snd db system_settings].
  set (rows := system_settings (db w)). unfold replace_row.
  assert (Hkeep : forall rs : list (string * string * string),
    map (fun r => r.1.1)
        (List.filter (fun r => negb (String.eqb r.1.1 key)) rs) =
    List.filter (fun k => negb (String.eqb k key)) (map (fun r => r.1.1) rs)).
  { induction rs as [|r rs IH]; simpl; [reflexivity|].
    destruct (String.eqb r.1.1 key); simpl; by rewrite IH. }
  rewrite map_app, Hkeep. cbn [map]. split; [|split].
  - rewrite List.filter_app. rewrite length_app. cbn [List.filter].
    rewrite String.eqb_refl. cbn [length].
    assert (Hnone : forall ks : list string,
      List.filter (String.eqb key)
        (List.filter (fun k => negb (String.eqb k key)) ks) = []).
    { induction ks as [|k ks IH]; simpl; [reflexivity|].
      destruct (String.eqb k key) eqn:E; simpl; [exact IH|].
      rewrite String.eqb_sym, E. exact IH. }
    by rewrite Hnone.
  - intros Hnd. apply NoDup_app. split; [|split].
    + apply NoDup_ListNoDup, List.NoDup_filter, NoDup_ListNoDup, Hnd.
    + intros k Hk Hk'. apply list_elem_of_singleton in Hk' as ->.
      apply list_elem_of_In, List.filter_In in Hk as (_ & Hk).
      by rewrite String.eqb_refl in Hk.
    + apply NoDup_singleton.
  - intros Hnot.
    assert (Hf : List.find (fun r : string * string * string =>
                              String.eqb r.1.1 key) rows = None).
    { clearbody rows. induction rows as [|r rows IH]; [reflexivity|].
      cbn [map] in Hnot. apply not_elem_of_cons in Hnot as (Hr & Hnot).
      cbn [List.find].
      assert (E : String.eqb r.1.1 key = false)
        by (apply String.eqb_neq; congruence).
      rewrite E. by apply IH. }
    by rewrite Hf.
Qed.

Lemma setting_key_stays_unique_witness :
  get_system_setting Sample.env "volume" (Some "5") Sample.world =
  (Return (Some "5"), Sample.world).
Proof.
  apply (proj2 (proj2 (setting_key_stays_unique Sample.env "volume" "7"
                         (Some "5") Sample.world eq_refl))).
  intros H. by apply elem_of_nil in H.
Defined.

(** X20.  [get_user_preferences], with the database reachable, changes
    nothing; for a name that is not in [people] it returns the empty
    dictionary, for a known name the role and language preference of the
    stored row and at most five recent topics. *)
Theorem user_preferences_of_name (env : Env) (user : string) (w : World) :
  db_available env = true ->
  match List.find (fun p => String.eqb (name p) user) (people (db w)) with
  | None => get_user_preferences env user w = (Return None, w)
  | Some person =>
      exists info,
        get_user_preferences env user w = (Return (Some info), w) /\
        info_role info = role person /\
        info_language_preference info = language_preference person /\
        (length (recent_topics info) <= 5)%nat
  end.
Proof.
  intros Hdb.
  unfold get_user_preferences, get_person_by_name, get_conversation_history,
    connect, lift, gets, mbind, Py_bind. rewrite Hdb. cbn [fst snd].
  destruct (List.find _ _) as [person|]; [|reflexivity].
  eexists. split; [reflexivity|]. cbn [info_role info_language_preference
                                       recent_topics].
  split; [reflexivity|]. split; [reflexivity|].
  rewrite length_map, length_take. lia.
Qed.

Lemma user_preferences_of_name_witness :
  exists info,
    get_user_preferences Sample.env "Rahim" Classroom.world
      = (Return (Some info), Classroom.world) /\
    info_role info = "teacher" /\
    info_language_preference info = "en" /\
    (length (recent_topics info) <= 5)%nat.
Proof.
  exact (user_preferences_of_name Sample.env "Rahim" Classroom.world eq_refl).
Defined.

End SettingsExtras.

Section RoleExtras.
Import SchoolRoleManager.

(** X21.  The roles form a ladder: what a student may do a teacher may do,
    what a teacher may do the principal may do, and the admin may do
    everything; the role [friend], which the memory gives to people by
    default, is not in the table and may do nothing. *)
Theorem role_ladder (action : string) :
  (check_permission "student" action = true ->
   check_permission "teacher" action = true) /\
  (check_permission "teacher" action = true ->
   check_permission "principal" action = true) /\
  (check_permission "principal" action = true ->
   check_permission "admin" action = true) /\
  check_permission "friend" action = false.
Proof.
  unfold check_permission.
  change (role_permissions !! "student")
    with (Some ["ask_questions"; "request_help"; "entertainment"]).
  change (role_permissions !! "teacher")
    with (Some ["ask_questions"; "request_help"; "entertainment";
                "take_photos"; "student_info"]).
  change (role_permissions !! "principal")
    with (Some ["ask_questions"; "request_help"; "entertainment";
                "take_photos"; "student_info"; "reports"; "system_control"]).
  change (role_permissions !! "admin") with (Some ["all_permissions"]).
  change (role_permissions !! "friend") with (@None (list string)).
  cbv iota beta.
  repeat match goal with
    | |- context [bool_decide ("all_permissions" ∈ ?l)] =>
        change (bool_decide ("all_permissions" ∈ l))
          with (ltac:(let v := eval vm_compute in (bool_decide ("all_permissions" ∈ l)) in exact v))
    end.
  cbv iota. rewrite !bool_decide_eq_true, !elem_of_cons, !elem_of_nil.
  repeat split; try done; tauto.
Qed.

Lemma role_ladder_witness :
  check_permission "teacher" "entertainment" = true.
Proof.
  apply (proj1 (role_ladder "entertainment")). reflexivity.
Defined.

End RoleExtras.

Section MotionExtras.
Import MotionController.

(** X22.  The speed setters clamp: after [set_motor_speed] the motor speed
    lies between 1 and 100 and is the speed asked for when that one is in
    range; the same holds for [set_turn_speed]; neither changes the other
    speed or the servo positions. *)
Theorem speed_setters_clamp (speed : Z) (s : Settings) :
  (1 <= motor_speed (set_motor_speed speed s) <= 100)%Z /\
  (1 <= turn_speed (set_turn_speed speed s) <= 100)%Z /\
  ((1 <= speed <= 100)%Z ->
   motor_speed (set_motor_speed speed s) = speed /\
   turn_speed (set_turn_speed speed s) = speed) /\
  turn_speed (set_motor_speed speed s) = turn_speed s /\
  motor_speed (set_turn_speed speed s) = motor_speed s /\
  servo_positions (set_motor_speed speed s) = servo_positions s /\
  servo_positions (set_turn_speed speed s) = servo_positions s.
Proof.
  unfold set_motor_speed, set_turn_speed. cbn [motor_speed turn_speed
                                                servo_positions].
  repeat split; try lia; reflexivity.
Qed.

Lemma speed_setters_clamp_witness :
  motor_speed (set_motor_speed 250 initial) = 100%Z /\
  motor_speed (set_motor_speed 70 initial) = 70%Z /\
  turn_speed (set_turn_speed 70 initial) = 70%Z.
Proof.
  split; [reflexivity|].
  apply (proj1 (proj2 (proj2 (speed_setters_clamp 70 initial)))). lia.
Defined.

(** X23.  Servo positions stay within 0 and 180 degrees: if every stored
    position is in range, so is every position after [_set_servo_position];
    the controller keeps the same servos (a name it does not have is
    ignored), and a servo it has is set to the clamped position.  The
    initial positions are in range. *)
Theorem servo_positions_in_range (servo : string) (position : Z) (s : Settings) :
  (forall name p, servo_positions s !! name = Some p -> (0 <= p <= 180)%Z) ->
  (forall name p,
     servo_positions (_set_servo_position servo position s) !! name = Some p ->
     (0 <= p <= 180)%Z) /\
  dom (servo_positions (_set_servo_position servo position s))
    = dom (servo_positions s) /\
  (is_Some (servo_positions s !! servo) ->
   servo_positions (_set_servo_position servo position s) !! servo
     = Some (Z.max 0 (Z.min 180 position))) /\
  (servo_positions s !! servo = None -> _set_servo_position servo position s = s).
Proof.
  intros Hin. unfold _set_servo_position. cbv zeta.
  destruct (servo_positions s !! servo) as [old|] eqn:E; cbn [servo_positions].
  - split; [|split; [|split]].
    + intros name p. rewrite lookup_insert_Some.
      intros [(_ & <-)|(_ & H)]; [lia | exact (Hin name p H)].
    + rewrite dom_insert_L. apply subseteq_union_1_L, singleton_subseteq_l.
      by apply elem_of_dom_2 in E.
    + intros _. apply lookup_insert_eq.
    + discriminate.
  - split; [exact Hin|]. split; [reflexivity|]. split; [|reflexivity].
    intros [x Hx]. discriminate Hx.
Qed.

Lemma servo_positions_in_range_witness :
  servo_positions (_set_servo_position "head_pan" 270 initial) !! "head_pan"
    = Some 180%Z.
Proof.
  refine (proj1 (proj2 (proj2 (servo_positions_in_range "head_pan" 270 initial _)))
            _).
  - intros name p H. unfold initial in H. cbn [servo_positions] in H.
    apply elem_of_list_to_map_2 in H.
    repeat (apply elem_of_cons in H as [H|H]; [injection H as _ ->; lia|]).
    by apply elem_of_nil in H.
  - by eexists.
Defined.

End MotionExtras.


Section SearchExtras.
Import IntentRecognizer MemoryManager TaskManager.

(** X7.  Recognition, extraction and dispatch together: a text recognised
    as a search in which none of the trigger prefixes of the extraction
    occurs (the catalogue also has the patterns [find information] and
    [internet search], which are no such prefixes) carries no query, and the
    robot, with the database reachable, asks what to search for. *)
Theorem search_without_trigger_asks_again
    (env : Env) (text language : string) (user : option string) (w : World) :
  db_available env = true ->
  type (recognize text language) = SEARCH ->
  search_query (if String.eqb language "bn" then search_prefixes_bn
                else search_prefixes_en) (normalize text) = None ->
  parameters (recognize text language) !! "query" = None /\
  (handle_intent env (recognize text language) text language user w).1 =
    Return (if String.eqb language "bn"
            then "কি খুঁজতে চান? অনুগ্রহ করে স্পষ্ট করে বলুন।"
            else "What would you like me to search for? Please be more specific.").
Proof.
  intros Hdb Hty Hnone.
  assert (Hq : parameters (recognize text language) !! "query" = None).
  { rewrite recognize_parameters. destruct (Qle_bool _ _); [|apply lookup_empty].
    rewrite recognize_type in Hty.
    destruct (scan (normalize text) (patterns_for language)).1 as [k|];
      simpl in Hty; [subst k|discriminate Hty].
    cbn [_extract_parameters]. rewrite Hnone. apply lookup_empty. }
  split; [exact Hq|].
  rewrite (handle_intent_steps env _ text language user w Hdb).
  rewrite Hty. cbn [_initialize_handlers default from_option id].
  rewrite search_without_query by (by rewrite Hq).
  change (IntentRecognizer.language (recognize text language)) with language.
  by destruct (String.eqb language "bn").
Qed.

Lemma search_without_trigger_asks_again_witness :
  parameters (recognize "internet search cats" "en") !! "query" = None /\
  (handle_intent Sample.env (recognize "internet search cats" "en")
     "internet search cats" "en" None Sample.world).1 =
  Return "What would you like me to search for? Please be more specific.".
Proof.
  apply (search_without_trigger_asks_again Sample.env "internet search cats"
           "en" None Sample.world); [reflexivity | by vm_compute | by vm_compute].
Defined.

End SearchExtras.
